(** * pserver.oauth: a shallow embedding of [pserver/oauth/oauth.py]

    The module talks to a remote OAuth authority: it keeps a service
    token, validates bearer tokens of inbound requests against the
    authority and turns a validated login into a user with roles and
    groups.  The embedding follows the Python source function by
    function.  Python values are an inductive type, dictionaries are
    insertion-ordered association lists, exceptions are an error result,
    and the mutable objects (the utility's [_service_token], the request's
    credential cache, the log, the outbound calls made so far) live in one
    store that is threaded through a state-and-exception monad. *)

From Stdlib Require Import ZArith List String Ascii Bool Lia Permutation.
Import ListNotations.

Set Warnings "-register-all".

Local Open Scope string_scope.
Local Open Scope Z_scope.

(** ** Python values *)

(** [zope.securitypolicy.interfaces]: the three permission settings. *)
Inductive setting : Type := Allow | Deny | Unset.

(** The values that reach the module: JSON data decoded from token
    payloads (floats left out), plus the permission settings that
    [_init_data] stores into the role dictionary. *)
Inductive pyval : Type :=
| PNone
| PBool (b : bool)
| PInt (n : Z)
| PStr (s : string)
| PSetting (p : setting)
| PList (l : list pyval)
| PDict (d : list (string * pyval)).

Definition dict : Type := list (string * pyval).

Inductive jwt_error : Type :=
| DecodeError
| InvalidAlgorithmError
| InvalidIssuedAtError
| ImmatureSignatureError
| ExpiredSignatureError
| InvalidAudienceError.

Inductive exc : Type :=
| KeyError (arg : string)
| TypeError
| AttributeError
| UnicodeEncodeError
| ComponentLookupError
| JwtError (e : jwt_error).

Inductive res (A : Type) : Type :=
| Ok (a : A)
| Raise (e : exc).
Arguments Ok {A} a.
Arguments Raise {A} e.

Definition res_bind {A B : Type} (r : res A) (k : A -> res B) : res B :=
  match r with
  | Ok a => k a
  | Raise e => Raise e
  end.

Notation "x <~ c ;; k" := (res_bind c (fun x => k))
  (at level 61, c at next level, right associativity).

(** *** Dictionaries *)

Fixpoint dict_get (k : string) (d : dict) : option pyval :=
  match d with
  | [] => None
  | (k', v) :: d' => if String.eqb k k' then Some v else dict_get k d'
  end.

(** [d[k] = v]: an existing key keeps its place, a new key goes last. *)
Fixpoint dict_set (k : string) (v : pyval) (d : dict) : dict :=
  match d with
  | [] => [(k, v)]
  | (k', v') :: d' =>
      if String.eqb k k' then (k', v) :: d' else (k', v') :: dict_set k v d'
  end.

Definition dict_mem (k : string) (d : dict) : bool :=
  match dict_get k d with
  | Some _ => true
  | None => false
  end.

Definition dict_keys (d : dict) : list string := map fst d.

(** [d.update(new)] *)
Definition dict_update (d new : dict) : dict :=
  fold_left (fun acc kv => dict_set (fst kv) (snd kv) acc) new d.

(** [v[k]] for a string key. *)
Definition subscript (v : pyval) (k : string) : res pyval :=
  match v with
  | PDict d =>
      match dict_get k d with
      | Some x => Ok x
      | None => Raise (KeyError k)
      end
  | _ => Raise TypeError
  end.

(** [k in v] *)
Definition contains (k : string) (v : pyval) : res bool :=
  match v with
  | PDict d => Ok (dict_mem k d)
  | PList l =>
      Ok (existsb (fun x => match x with PStr s => String.eqb s k | _ => false end) l)
  | _ => Raise TypeError
  end.

(** [v.items()] *)
Definition items (v : pyval) : res dict :=
  match v with
  | PDict d => Ok d
  | _ => Raise AttributeError
  end.

(** [len(v)] *)
Definition len (v : pyval) : res Z :=
  match v with
  | PDict d => Ok (Z.of_nat (List.length d))
  | PList l => Ok (Z.of_nat (List.length l))
  | PStr s => Ok (Z.of_nat (String.length s))
  | _ => Raise TypeError
  end.

(** Truth value of [v] in a condition. *)
Definition truthy (v : pyval) : bool :=
  match v with
  | PNone => false
  | PBool b => b
  | PInt n => negb (n =? 0)
  | PStr s => negb (String.eqb s EmptyString)
  | PSetting _ => true
  | PList l => match l with [] => false | _ => true end
  | PDict d => match d with [] => false | _ => true end
  end.

Definition is_None (v : pyval) : bool :=
  match v with
  | PNone => true
  | _ => false
  end.

Definition setting_eqb (p q : setting) : bool :=
  match p, q with
  | Allow, Allow | Deny, Deny | Unset, Unset => true
  | _, _ => false
  end.

(** [a == b].  Booleans compare as the integers 0 and 1; dictionaries
    compare without regard to order. *)
Fixpoint py_eq (a b : pyval) {struct a} : bool :=
  match a, b with
  | PNone, PNone => true
  | PBool x, PBool y => Bool.eqb x y
  | PBool x, PInt n => Z.b2z x =? n
  | PInt n, PBool y => n =? Z.b2z y
  | PInt n, PInt m => n =? m
  | PStr s, PStr t => String.eqb s t
  | PSetting p, PSetting q => setting_eqb p q
  | PList xs, PList ys =>
      (fix go (xs ys : list pyval) {struct xs} : bool :=
         match xs, ys with
         | [], [] => true
         | x :: xs', y :: ys' => py_eq x y && go xs' ys'
         | _, _ => false
         end) xs ys
  | PDict d, PDict e =>
      (List.length d =? List.length e)%nat &&
      (fix all (d : list (string * pyval)) {struct d} : bool :=
         match d with
         | [] => true
         | (k, v) :: d' =>
             match dict_get k e with
             | Some w => py_eq v w
             | None => false
             end && all d'
         end) d
  | _, _ => false
  end.

(** [v > n] for an integer [n]. *)
Definition py_gt_int (v : pyval) (n : Z) : res bool :=
  match v with
  | PInt m => Ok (n <? m)
  | PBool b => Ok (n <? Z.b2z b)
  | _ => Raise TypeError
  end.

(** *** Strings *)

(** [s.lower()], a character being a code point below 256. *)
Definition lower_ascii (c : ascii) : ascii :=
  let n := nat_of_ascii c in
  if ((65 <=? n) && (n <=? 90))%nat then ascii_of_nat (n + 32)
  else if ((192 <=? n) && (n <=? 222) && negb (n =? 215))%nat then ascii_of_nat (n + 32)
  else c.

Fixpoint lower (s : string) : string :=
  match s with
  | EmptyString => EmptyString
  | String c s' => String (lower_ascii c) (lower s')
  end.

(** [s.partition(' ')] *)
Fixpoint partition (s : string) : string * string * string :=
  match s with
  | EmptyString => (EmptyString, EmptyString, EmptyString)
  | String c s' =>
      if Ascii.eqb c " "%char then (EmptyString, " ", s')
      else let '(a, m, b) := partition s' in (String c a, m, b)
  end.

Fixpoint is_ascii (s : string) : bool :=
  match s with
  | EmptyString => true
  | String c s' => (nat_of_ascii c <? 128)%nat && is_ascii s'
  end.

(** [s.encode('ascii')] *)
Definition encode_ascii (s : string) : res string :=
  if is_ascii s then Ok s else Raise UnicodeEncodeError.

(** *** [int()] *)

(** The characters [str.strip] and [int()] take for white space, among
    the code points below 256. *)
Definition is_space (c : ascii) : bool :=
  let n := nat_of_ascii c in
  (((9 <=? n) && (n <=? 13)) || ((28 <=? n) && (n <=? 32)) || (n =? 133) || (n =? 160))%nat.

Definition digit_of (c : ascii) : option Z :=
  let n := nat_of_ascii c in
  if ((48 <=? n) && (n <=? 57))%nat then Some (Z.of_nat (n - 48)) else None.

Fixpoint lstrip (s : string) : string :=
  match s with
  | EmptyString => EmptyString
  | String c s' => if is_space c then lstrip s' else s
  end.

Fixpoint rstrip (s : string) : string :=
  match s with
  | EmptyString => EmptyString
  | String c s' =>
      match rstrip s' with
      | EmptyString => if is_space c then EmptyString else String c EmptyString
      | r => String c r
      end
  end.

(** Decimal digits, with single underscores between digits (Python 3.6
    on; 3.5 refuses the underscores).  [after_digit] tells whether the
    character before was a digit. *)
Fixpoint digits (acc : Z) (after_digit : bool) (s : string) : option Z :=
  match s with
  | EmptyString => if after_digit then Some acc else None
  | String c s' =>
      match digit_of c with
      | Some d => digits (10 * acc + d) true s'
      | None =>
          if Ascii.eqb c "_"%char && after_digit then
            match s' with
            | EmptyString => None
            | String c' _ =>
                match digit_of c' with
                | Some _ => digits acc false s'
                | None => None
                end
            end
          else None
      end
  end.

(** [int(s)] for a string, [None] standing for [ValueError]. *)
Definition int_of_str (s : string) : option Z :=
  match rstrip (lstrip s) with
  | String "-" s' => option_map Z.opp (digits 0 false s')
  | String "+" s' => digits 0 false s'
  | s' => digits 0 false s'
  end.

Inductive int_result : Type :=
| IntOk (n : Z)
| IntValueError
| IntTypeError.

(** [int(v)] *)
Definition py_int (v : pyval) : int_result :=
  match v with
  | PInt n => IntOk n
  | PBool b => IntOk (Z.b2z b)
  | PStr s =>
      match int_of_str s with
      | Some n => IntOk n
      | None => IntValueError
      end
  | _ => IntTypeError
  end.

(** ** The PyJWT library, as the module uses it *)

(** [jwt.decode] belongs to the PyJWT library (1.4), not to this
    repository.  Its model works on the opened token: [jws_load] of the
    world stands for the base64 and JSON layers and for the cryptography,
    and tells for a text which algorithm its header names, with which key
    it was signed and what payload it carries ([None]: not a token at
    all).  The checks and their order are PyJWT's: algorithm, signature,
    payload, then the claims [iat], [nbf], [exp], [aud]. *)
Module PyJWT.

Record jws : Type := {
  jws_alg : string;
  jws_key : string;
  jws_payload : pyval
}.

Record options : Type := {
  verify_signature : bool;
  verify_exp : bool;
  verify_nbf : bool;
  verify_iat : bool;
  verify_aud : bool
}.

Definition default_options : options :=
  {| verify_signature := true; verify_exp := true; verify_nbf := true;
     verify_iat := true; verify_aud := true |}.

Definition override (name : string) (given : list (string * bool)) (default : bool) : bool :=
  match find (fun kv => String.eqb (fst kv) name) (rev given) with
  | Some kv => snd kv
  | None => default
  end.

(** [merge_dict(self.options, options)] *)
Definition merge_options (base : options) (given : list (string * bool)) : options :=
  {| verify_signature := override "verify_signature" given (verify_signature base);
     verify_exp := override "verify_exp" given (verify_exp base);
     verify_nbf := override "verify_nbf" given (verify_nbf base);
     verify_iat := override "verify_iat" given (verify_iat base);
     verify_aud := override "verify_aud" given (verify_aud base) |}.

(** [try: int(payload[claim]) except ValueError: raise DecodeError(...)]
    of the time claims: a string that is no number is a [DecodeError], a
    value [int()] has no conversion for is a [TypeError] that nothing in
    the library catches. *)
Definition claim_int (v : pyval) : res Z :=
  match py_int v with
  | IntOk n => Ok n
  | IntValueError => Raise (JwtError DecodeError)
  | IntTypeError => Raise TypeError
  end.

Definition validate_iat (payload : dict) (now : Z) : res unit :=
  match dict_get "iat" payload with
  | None => Ok tt
  | Some v =>
      iat <~ claim_int v ;;
      if now <? iat then Raise (JwtError InvalidIssuedAtError) else Ok tt
  end.

Definition validate_nbf (payload : dict) (now : Z) : res unit :=
  match dict_get "nbf" payload with
  | None => Ok tt
  | Some v =>
      nbf <~ claim_int v ;;
      if now <? nbf then Raise (JwtError ImmatureSignatureError) else Ok tt
  end.

Definition validate_exp (payload : dict) (now : Z) : res unit :=
  match dict_get "exp" payload with
  | None => Ok tt
  | Some v =>
      exp <~ claim_int v ;;
      if exp <? now then Raise (JwtError ExpiredSignatureError) else Ok tt
  end.

(** No audience is ever passed by the module, so a token that names
    one is refused. *)
Definition validate_aud (payload : dict) : res unit :=
  if dict_mem "aud" payload then Raise (JwtError InvalidAudienceError) else Ok tt.

Definition validate_claims (opts : options) (payload : dict) (now : Z) : res unit :=
  _ <~ (if verify_iat opts then validate_iat payload now else Ok tt) ;;
  _ <~ (if verify_nbf opts then validate_nbf payload now else Ok tt) ;;
  _ <~ (if verify_exp opts then validate_exp payload now else Ok tt) ;;
  if verify_aud opts then validate_aud payload else Ok tt.

Definition verify_jws (opts : options) (j : jws) (key : string) (algorithms : list string) : res unit :=
  if verify_signature opts then
    if negb (existsb (String.eqb (jws_alg j)) algorithms) then
      Raise (JwtError InvalidAlgorithmError)
    else if negb (String.eqb (jws_key j) key) then
      Raise (JwtError DecodeError)
    else Ok tt
  else Ok tt.

(** [jwt.decode(text, key, algorithms=algorithms, options=given)] at
    clock reading [now]. *)
Definition decode (load : string -> option jws) (now : Z)
    (text key : string) (algorithms : list string)
    (given : list (string * bool)) : res pyval :=
  let opts := merge_options default_options given in
  match load text with
  | None => Raise (JwtError DecodeError)
  | Some j =>
      _ <~ verify_jws opts j key algorithms ;;
      match jws_payload j with
      | PDict payload =>
          _ <~ validate_claims opts payload now ;;
          Ok (PDict payload)
      | _ => Raise (JwtError DecodeError)
      end
  end.

(** The exception classes: every one derives from [InvalidTokenError],
    none of the others from [DecodeError]. *)
Definition is_DecodeError (e : exc) : bool :=
  match e with
  | JwtError DecodeError => true
  | _ => false
  end.

Definition is_InvalidIssuedAtError (e : exc) : bool :=
  match e with
  | JwtError InvalidIssuedAtError => true
  | _ => false
  end.

End PyJWT.

(** ** The store and the monad of the module's code *)

Inductive level : Type := DEBUG | INFO | WARNING | ERROR.

(** What the module hands to [logger]. *)
Inductive logrec : Type :=
| LogMsg (lvl : level) (msg : string)
| LogCall (method url : string) (params : dict)
| LogServerError (status : Z) (body : string)
| LogValue (lvl : level) (v : pyval).

(** One request sent to the authority. *)
Record outcall : Type := {
  oc_method : string;
  oc_url : string;
  oc_params : dict
}.

Record response : Type := {
  status : Z;
  text : string
}.

(** [OAuth.__init__]: the five settings the utility keeps. *)
Record settings : Type := {
  _server : string;
  _jwt_secret : string;
  _jwt_algorithm : string;
  _client_id : string;
  _client_password : string
}.

(** What the code reads but does not own: the clock ([timegm] of the
    current time), the token layer under [jwt.decode], the remote
    authority (its answer may depend on the calls made before) and the
    component registry consulted by [getUtility(IOAuth)]. *)
Record world : Type := {
  now : Z;
  jws_load : string -> option PyJWT.jws;
  authority : list outcall -> outcall -> response;
  IOAuth : option settings
}.

Record oauth_user : Type := {
  token : pyval;
  login : pyval;
  id : pyval;
  _roles : pyval;
  _groups : list string;
  name : pyval
}.

Inductive user : Type :=
| AnonymousUser
| OAuthPloneUser (u : oauth_user).

(** The mutable objects: [OAuth._service_token] ([None] from
    [initialize] on), the request attributes [_cache_credentials] and
    [_cache_user] (absent until set), the outbound calls and the log. *)
Record store : Type := {
  _service_token : pyval;
  _cache_credentials : option dict;
  _cache_user : option user;
  trace : list outcall;
  logs : list logrec
}.

Definition M (A : Type) : Type := store -> res A * store.

Definition ret {A : Type} (a : A) : M A := fun s => (Ok a, s).

Definition raise {A : Type} (e : exc) : M A := fun s => (Raise e, s).

Definition bind {A B : Type} (c : M A) (k : A -> M B) : M B :=
  fun s =>
    match c s with
    | (Ok a, s') => k a s'
    | (Raise e, s') => (Raise e, s')
    end.

Notation "x <- c ;; k" := (bind c (fun x => k))
  (at level 61, c at next level, right associativity).
Notation "c ;;; k" := (bind c (fun _ => k))
  (at level 61, right associativity).

Definition lift {A : Type} (r : res A) : M A := fun s => (r, s).

(** [try: c except <class>: handler] *)
Definition try_except {A : Type} (c : M A) (caught : exc -> bool) (handler : M A) : M A :=
  fun s =>
    match c s with
    | (Ok a, s') => (Ok a, s')
    | (Raise e, s') => if caught e then handler s' else (Raise e, s')
    end.

Definition get_service_token : M pyval := fun s => (Ok (_service_token s), s).

Definition set_service_token (v : pyval) : M unit :=
  fun s =>
    (Ok tt,
     {| _service_token := v; _cache_credentials := _cache_credentials s;
        _cache_user := _cache_user s; trace := trace s; logs := logs s |}).

Definition get_cache_credentials : M (option dict) :=
  fun s => (Ok (_cache_credentials s), s).

Definition set_cache_credentials (d : dict) : M unit :=
  fun s =>
    (Ok tt,
     {| _service_token := _service_token s; _cache_credentials := Some d;
        _cache_user := _cache_user s; trace := trace s; logs := logs s |}).

Definition set_cache_user (u : user) : M unit :=
  fun s =>
    (Ok tt,
     {| _service_token := _service_token s; _cache_credentials := _cache_credentials s;
        _cache_user := Some u; trace := trace s; logs := logs s |}).

Definition logger (r : logrec) : M unit :=
  fun s =>
    (Ok tt,
     {| _service_token := _service_token s; _cache_credentials := _cache_credentials s;
        _cache_user := _cache_user s; trace := trace s; logs := logs s ++ [r] |}).

(** The HTTP round trip of [session.get] / [session.post]: the call is
    recorded and the authority answers. *)
Definition http (w : world) (c : outcall) : M response :=
  fun s =>
    (Ok (authority w (trace s) c),
     {| _service_token := _service_token s; _cache_credentials := _cache_credentials s;
        _cache_user := _cache_user s; trace := trace s ++ [c]; logs := logs s |}).

(** ** class OAuth *)

Definition NON_IAT_VERIFY : list (string * bool) := [("verify_iat", false)].

Definition REST_API : list (string * (string * string)) :=
  [ ("getAuthCode", ("POST", "get_authorization_code"));
    ("getAuthToken", ("POST", "get_auth_token"));
    ("searchUser", ("POST", "search_user"));
    ("validToken", ("POST", "valid_token"));
    ("getUser", ("POST", "get_user"));
    ("getGroup", ("POST", "get_group"));
    ("getScopeUsers", ("GET", "get_users"));
    ("getScopes", ("GET", "get_scopes"));
    ("grantGlobalRoles", ("POST", "grant_scope_roles"));
    ("revokeGlobalRoles", ("POST", "deny_scope_roles")) ].

Fixpoint rest_api_get (call : string) (table : list (string * (string * string)))
  : option (string * string) :=
  match table with
  | [] => None
  | (k, v) :: table' => if String.eqb call k then Some v else rest_api_get call table'
  end.

(** [jwt.decode(body, self._jwt_secret, algorithms=[self._jwt_algorithm], options=given)] *)
Definition jwt_decode (w : world) (self : settings) (body : string)
    (given : list (string * bool)) : res pyval :=
  PyJWT.decode (jws_load w) (now w) body (_jwt_secret self) [_jwt_algorithm self] given.

(** The [try ... except jwt.InvalidIssuedAtError] block of [call_auth],
    the same in the GET and in the POST branch. *)
Definition decode_body (w : world) (self : settings) (body : string) : M pyval :=
  try_except
    (lift (jwt_decode w self body []))
    PyJWT.is_InvalidIssuedAtError
    (logger (LogMsg ERROR "Error on Time at OAuth Server") ;;;
     lift (jwt_decode w self body NON_IAT_VERIFY)).

(** [OAuth.call_auth(call, params)], with [future] left at [None] as in
    every call of the module. *)
Definition call_auth (w : world) (self : settings) (call : string) (params : dict) : M pyval :=
  match rest_api_get call REST_API with
  | None => raise (KeyError call)
  | Some (method, url) =>
      if String.eqb method "GET" then
        logger (LogCall "GET" (_server self ++ url) params) ;;;
        resp <- http w {| oc_method := "GET"; oc_url := _server self ++ url;
                          oc_params := params |} ;;
        if status resp =? 200 then decode_body w self (text resp)
        else
          logger (LogServerError (status resp) (text resp)) ;;;
          ret PNone
      else if String.eqb method "POST" then
        logger (LogCall "POST" (_server self ++ url) params) ;;;
        resp <- http w {| oc_method := "POST"; oc_url := _server self ++ url;
                          oc_params := params |} ;;
        if status resp =? 200 then decode_body w self (text resp)
        else
          logger (LogServerError (status resp) (text resp)) ;;;
          ret PNone
      else ret PNone
  end.

(** [OAuth.service_token] (a property). *)
Definition service_token (w : world) (self : settings) : M pyval :=
  let obtain : M pyval :=
    logger (LogMsg INFO "SERVICE TOKEN OBTAIN") ;;;
    result <- call_auth w self "getAuthToken"
                [("client_id", PStr (_client_id self));
                 ("client_secret", PStr (_client_password self));
                 ("grant_type", PStr "service")] ;;
    if truthy result then
      set_service_token result ;;;
      held <- get_service_token ;;
      lift (subscript held "service_token")
    else ret PNone in
  held <- get_service_token ;;
  if truthy held then
    exp <- lift (subscript held "exp") ;;
    later <- lift (py_gt_int exp (now w)) ;;
    if later then lift (subscript held "service_token") else obtain
  else obtain.

(** The part of the request the module reads: the [AUTHORIZATION] header
    and [request.site.id]. *)
Record request : Type := {
  AUTHORIZATION : option string;
  site_id : pyval
}.

(** [OAuth.validate_token(request, token)] *)
Definition validate_token (w : world) (self : settings) (req : request) (tok : pyval) : M pyval :=
  let scope := site_id req in
  held <- get_service_token ;;
  code <- lift (subscript held "service_token") ;;
  result <- call_auth w self "validToken"
              [("code", code); ("token", tok); ("scope", scope)] ;;
  if truthy result then
    has_user <- lift (contains "user" result) ;;
    if has_user then lift (subscript result "user") else ret PNone
  else ret PNone.

(** ** The component registry *)

(** [getUtility(IOAuth)] *)
Definition getUtility (w : world) : res settings :=
  match IOAuth w with
  | Some u => Ok u
  | None => Raise ComponentLookupError
  end.

Definition is_ComponentLookupError (e : exc) : bool :=
  match e with
  | ComponentLookupError => true
  | _ => false
  end.

Definition is_KeyError (e : exc) : bool :=
  match e with
  | KeyError _ => true
  | _ => false
  end.

(** The request attribute [_cache_credentials]; reading it while it is
    absent is an [AttributeError]. *)
Definition cache_credentials : M dict :=
  cc <- get_cache_credentials ;;
  match cc with
  | Some d => ret d
  | None => raise AttributeError
  end.

(** ** class PloneJWTExtraction *)

Record PloneJWTExtraction : Type := {
  pje_request : request;
  config : option settings
}.

(** [PloneJWTExtraction.__init__(request)] *)
Definition PloneJWTExtraction_init (w : world) (req : request) : M PloneJWTExtraction :=
  cfg <- try_except
           (u <- lift (getUtility w) ;; ret (Some u))
           is_ComponentLookupError
           (logger (LogMsg ERROR "No IOAuth Utility") ;;; ret None) ;;
  cc <- get_cache_credentials ;;
  match cc with
  | None => set_cache_credentials []
  | Some _ => ret tt
  end ;;;
  ret {| pje_request := req; config := cfg |}.

(** [PloneJWTExtraction.extract_user()] *)
Definition extract_user (w : world) (self : PloneJWTExtraction) : M dict :=
  let header_auth := AUTHORIZATION (pje_request self) in
  let creds : dict := [] in
  creds <-
    match header_auth, config self with
    | Some header, Some cfg =>
        let '(schema, _, encoded_token) := partition header in
        if String.eqb (lower schema) "bearer" then
          tok <- lift (encode_ascii encoded_token) ;;
          creds <- try_except
                     (claims <- lift (jwt_decode w cfg tok []) ;;
                      ret (dict_set "jwt" claims creds))
                     PyJWT.is_DecodeError
                     (logger (LogMsg WARNING "Invalid JWT token") ;;; ret creds) ;;
          if dict_mem "jwt" creds then
            oauth_utility <- lift (getUtility w) ;;
            jwt <- lift (subscript (PDict creds) "jwt") ;;
            presented <- lift (subscript jwt "token") ;;
            validation <- validate_token w oauth_utility (pje_request self) presented ;;
            if negb (is_None validation) then
              jwt <- lift (subscript (PDict creds) "jwt") ;;
              claimed <- lift (subscript jwt "login") ;;
              if py_eq validation claimed then ret (dict_set "user" validation creds)
              else ret creds
            else ret creds
          else ret creds
        else ret creds
    | _, _ => ret creds
    end ;;
  cached <- cache_credentials ;;
  set_cache_credentials (dict_update cached creds) ;;;
  ret creds.

(** ** class OAuthPloneUser *)

(** The role-mapping policy of [_init_data]: the [if value == 1 ... elif
    value == 0 ... else] chain. *)
Definition role_setting (value : pyval) : setting :=
  if py_eq value (PInt 1) then Allow
  else if py_eq value (PInt 0) then Deny
  else Unset.

(** The loop [for key, value in self._roles.items(): self._roles[key] = ...],
    which rewrites the dictionary it walks over. *)
Definition translate_roles (roles : dict) : dict :=
  fold_left
    (fun acc kv => dict_set (fst kv) (PSetting (role_setting (snd kv))) acc)
    roles roles.

(** [[key for key, value in groups.items() if value]] *)
Definition member_groups (groups : dict) : list string :=
  map fst (filter (fun kv => truthy (snd kv)) groups).

(** [OAuthPloneUser.__init__(request)]; the role, group and name fields
    are filled in by [_init_data]. *)
Definition OAuthPloneUser_init : M oauth_user :=
  creds <- cache_credentials ;;
  tok <- lift (subscript (PDict creds) "jwt") ;;
  who <- lift (subscript (PDict creds) "user") ;;
  ret {| token := tok; login := who; id := who;
         _roles := PDict []; _groups := []; name := PNone |}.

(** [OAuthPloneUser._init_data(user_data)] *)
Definition _init_data (self : oauth_user) (user_data : pyval) : M oauth_user :=
  result <- lift (subscript user_data "result") ;;
  raw <- lift (subscript result "roles") ;;
  entries <- lift (items raw) ;;
  let roles := PDict (translate_roles entries) in
  result <- lift (subscript user_data "result") ;;
  raw_groups <- lift (subscript result "groups") ;;
  group_entries <- lift (items raw_groups) ;;
  let groups := member_groups group_entries in
  result <- lift (subscript user_data "result") ;;
  display <- lift (subscript result "name") ;;
  logger (LogValue ERROR roles) ;;;
  n <- lift (len roles) ;;
  if n =? 0 then
    logger (LogMsg ERROR "User without roles in this scope") ;;;
    raise (KeyError "Plone OAuth User has no roles in this Scope")
  else
    ret {| token := token self; login := login self; id := id self;
           _roles := roles; _groups := groups; name := display |}.

(** [OAuthPloneUser.get_info()] *)
Definition get_info (w : world) (req : request) (self : oauth_user) : M oauth_user :=
  oauth_utility <- lift (getUtility w) ;;
  held <- service_token w oauth_utility ;;
  user_token <- lift (subscript (token self) "token") ;;
  result <- call_auth w oauth_utility "getUser"
              [("service_token", held); ("user_token", user_token);
               ("scope", site_id req); ("user", login self)] ;;
  if negb (truthy result) then raise (KeyError "Not a plone.oauth User")
  else _init_data self result.

(** ** class OAuthPloneUserFactory *)

(** [OAuthPloneUserFactory.create_user()] *)
Definition create_user (w : world) (req : request) : M unit :=
  creds <- cache_credentials ;;
  u <- (if negb (dict_mem "user" creds) then ret AnonymousUser
        else
          try_except
            (self <- OAuthPloneUser_init ;;
             self <- get_info w req self ;;
             ret (OAuthPloneUser self))
            is_KeyError
            (ret AnonymousUser)) ;;
  set_cache_user u.

(** ** The rest of class OAuth *)

(** [v - n] for an integer [n]. *)
Definition py_sub_int (v : pyval) (n : Z) : res Z :=
  match v with
  | PInt m => Ok (m - n)
  | PBool b => Ok (Z.b2z b - n)
  | _ => Raise TypeError
  end.

(** One pass of the [while True] loop of [OAuth.initialize]: the result
    is the duration handed to [asyncio.sleep]. *)
Definition initialize_pass (w : world) (self : settings) : M Z :=
  logger (LogMsg DEBUG "Renew token") ;;;
  let now := now w in
  _ <- service_token w self ;;
  held <- get_service_token ;;
  expiration <- lift (subscript held "exp") ;;
  time_to_sleep <- lift (py_sub_int expiration now) ;;
  ret time_to_sleep.

(** The passes of the loop, one world for each: the clock and the
    authority move on while the loop sleeps.  The loop itself has no
    exit; the list bounds how far it is followed. *)
Fixpoint initialize_passes (ws : list world) (self : settings) : M (list Z) :=
  match ws with
  | [] => ret []
  | w :: ws' =>
      t <- initialize_pass w self ;;
      ts <- initialize_passes ws' self ;;
      ret (t :: ts)
  end.

(** [OAuth.initialize(app)], followed through the passes given. *)
Definition initialize (ws : list world) (self : settings) : M (list Z) :=
  set_service_token PNone ;;;
  initialize_passes ws self.

(** [OAuth.auth_code(scope, client_id)] *)
Definition auth_code (w : world) (self : settings) (scope client_id : pyval) : M pyval :=
  held <- service_token w self ;;
  result <- call_auth w self "getAuthCode"
              [("client_id", client_id); ("service_token", held);
               ("scopes", scope); ("response_type", PStr "code")] ;;
  if truthy result then lift (subscript result "auth_code") else ret PNone.

(** ** class getCredentials *)

(** What the service reads of its request: the query parameters
    [request.GET] and, when the request has a [site], [request.site.id]. *)
Record service_request : Type := {
  GET : dict;
  site : option pyval
}.

(** [getCredentials.__call__()] *)
Definition getCredentials (w : world) (req : service_request) : M pyval :=
  oauth_utility <- lift (getUtility w) ;;
  client_id <- (if dict_mem "client_id" (GET req)
                then lift (subscript (PDict (GET req)) "client_id")
                else ret (PStr (_client_id oauth_utility))) ;;
  scope <- match site req with
           | Some i => ret i
           | None => lift (subscript (PDict (GET req)) "scope")
           end ;;
  result <- auth_code w oauth_utility (PList [scope]) client_id ;;
  ret (PDict [("auth_code", result)]).

(** ** Overlapping calls of [service_token] *)

(** The module runs on asyncio: a coroutine keeps the processor until it
    awaits something that is not ready.  [service_token] has one such
    point, the HTTP round trip inside [call_auth].  A call of it is
    therefore two atomic pieces, [begin] up to the request being sent and
    [resume] from the response on, and other coroutines may run on the
    shared store in between. *)
Module Async.

Inductive task : Type :=
| Start
| Awaiting (resp : response)
| Finished (r : res pyval).

Definition getAuthToken_params (self : settings) : dict :=
  [("client_id", PStr (_client_id self));
   ("client_secret", PStr (_client_password self));
   ("grant_type", PStr "service")].

Definition getAuthToken_call (self : settings) : outcall :=
  {| oc_method := "POST"; oc_url := _server self ++ "get_auth_token";
     oc_params := getAuthToken_params self |}.

(** From [logger.info('SERVICE TOKEN OBTAIN')] to the request on the wire. *)
Definition send (w : world) (self : settings) (s : store) : task * store :=
  match (logger (LogMsg INFO "SERVICE TOKEN OBTAIN") ;;;
         logger (LogCall "POST" (_server self ++ "get_auth_token")
                   (getAuthToken_params self)) ;;;
         http w (getAuthToken_call self)) s with
  | (Ok resp, s') => (Awaiting resp, s')
  | (Raise e, s') => (Finished (Raise e), s')
  end.

(** From the entry of [service_token] to its return or its suspension. *)
Definition begin (w : world) (self : settings) (s : store) : task * store :=
  let held := _service_token s in
  if truthy held then
    match (exp <~ subscript held "exp" ;; py_gt_int exp (now w)) with
    | Ok true => (Finished (subscript held "service_token"), s)
    | Ok false => send w self s
    | Raise e => (Finished (Raise e), s)
    end
  else send w self s.

(** From the response to the return of [service_token]. *)
Definition resume (w : world) (self : settings) (resp : response) (s : store)
  : task * store :=
  let '(r, s') :=
    (result <- (if status resp =? 200 then decode_body w self (text resp)
                else
                  logger (LogServerError (status resp) (text resp)) ;;;
                  ret PNone) ;;
     if truthy result then
       set_service_token result ;;;
       held <- get_service_token ;;
       lift (subscript held "service_token")
     else ret PNone) s in
  (Finished r, s').

Fixpoint set_task (i : nat) (t : task) (ts : list task) : list task :=
  match ts, i with
  | [], _ => []
  | _ :: ts', O => t :: ts'
  | t' :: ts', S i' => t' :: set_task i' t ts'
  end.

(** The event loop lets task [i] run its next piece. *)
Definition step (w : world) (self : settings) (i : nat) (st : store * list task)
  : store * list task :=
  let '(s, ts) := st in
  match nth_error ts i with
  | Some Start =>
      let '(t, s') := begin w self s in (s', set_task i t ts)
  | Some (Awaiting resp) =>
      let '(t, s') := resume w self resp s in (s', set_task i t ts)
  | Some (Finished _) => (s, ts)
  | None => (s, ts)
  end.

Definition run (w : world) (self : settings) (schedule : list nat)
    (st : store * list task) : store * list task :=
  fold_left (fun st i => step w self i st) schedule st.

Definition is_renewal (self : settings) (c : outcall) : bool :=
  String.eqb (oc_url c) (_server self ++ "get_auth_token").

(** The number of [getAuthToken] calls made so far. *)
Definition renewals (self : settings) (s : store) : nat :=
  List.length (filter (is_renewal self) (trace s)).

Definition unstarted (ts : list task) : nat :=
  List.length (filter (fun t => match t with Start => true | _ => false end) ts).

(** What a call has returned once its pieces have run. *)
Definition returned (ts : task * store) : option (res pyval * store) :=
  match ts with
  | (Finished r, s) => Some (r, s)
  | _ => None
  end.

End Async.

(** ** Vocabulary of the statements *)

(** The held token is absent, empty, or carries an [exp] that is not
    after the clock. *)
Definition stale (w : world) (s : store) : Prop :=
  truthy (_service_token s) = false \/
  exists d e, _service_token s = PDict d /\ dict_get "exp" d = Some (PInt e) /\ e <= now w.

(** The pieces of the store an action leaves alone. *)
Definition keeps_all_but_logs (s s' : store) : Prop :=
  _service_token s' = _service_token s /\
  _cache_credentials s' = _cache_credentials s /\
  _cache_user s' = _cache_user s /\
  trace s' = trace s.

(** What [call_auth] leaves behind before it looks at the response: the
    log line and the call on the wire. *)
Definition on_the_wire (w : world) (c : outcall) (s : store) : store :=
  snd (http w c (snd (logger (LogCall (oc_method c) (oc_url c) (oc_params c)) s))).

(** The policy applied to one entry of the role map. *)
Definition translate_entry (kv : string * pyval) : string * pyval :=
  (fst kv, PSetting (role_setting (snd kv))).

(** ** A small world to run the code in *)

Module Demo.

Definition cfg : settings :=
  {| _server := "https://auth.example/"; _jwt_secret := "s3cret";
     _jwt_algorithm := "HS256"; _client_id := "plone";
     _client_password := "pw" |}.

Definition signed (payload : dict) : option PyJWT.jws :=
  Some {| PyJWT.jws_alg := "HS256"; PyJWT.jws_key := "s3cret";
          PyJWT.jws_payload := PDict payload |}.

(** The clock reads 1000.  Each text below stands for one token. *)
Definition load (text : string) : option PyJWT.jws :=
  if String.eqb text "svc.T1" then
    signed [("service_token", PStr "T1"); ("exp", PInt 4600)]
  else if String.eqb text "svc.skewed" then
    signed [("service_token", PStr "T2"); ("iat", PInt 1005); ("exp", PInt 4605)]
  else if String.eqb text "svc.forged" then
    Some {| PyJWT.jws_alg := "HS256"; PyJWT.jws_key := "other";
            PyJWT.jws_payload := PDict [("service_token", PStr "T3"); ("iat", PInt 1005)] |}
  else if String.eqb text "bearer.alice" then
    signed [("login", PStr "alice"); ("token", PStr "tok1")]
  else if String.eqb text "bearer.expired" then
    signed [("login", PStr "alice"); ("token", PStr "tok1"); ("exp", PInt 900)]
  else if String.eqb text "bearer.nologin" then
    signed [("token", PStr "tok1")]
  else if String.eqb text "bearer.notoken" then
    signed [("login", PStr "alice")]
  else if String.eqb text "valid.alice" then
    signed [("user", PStr "alice")]
  else if String.eqb text "valid.bob" then
    signed [("user", PStr "bob")]
  else if String.eqb text "user.manager" then
    signed [("result", PDict [("roles", PDict [("manager", PInt 1)]);
                              ("groups", PDict [("staff", PInt 1)]);
                              ("name", PStr "Alice A.")])]
  else if String.eqb text "user.editor2" then
    signed [("result", PDict [("roles", PDict [("editor", PInt 2)]);
                              ("groups", PDict [("staff", PInt 1)]);
                              ("name", PStr "Alice A.")])]
  else if String.eqb text "user.noroles" then
    signed [("result", PDict [("roles", PDict []);
                              ("groups", PDict [("staff", PInt 1)]);
                              ("name", PStr "Alice A.")])]
  else None.

(** An authority that answers each operation with a fixed body, and with
    status 500 where no body is given. *)
Definition answer (bodies : list (string * string)) (past : list outcall) (c : outcall)
  : response :=
  match find (fun kv => String.eqb (oc_url c) (_server cfg ++ fst kv)) bodies with
  | Some kv => {| status := 200; text := snd kv |}
  | None => {| status := 500; text := "Internal Server Error" |}
  end.

Definition world_of (bodies : list (string * string)) : world :=
  {| now := 1000; jws_load := load; authority := answer bodies; IOAuth := Some cfg |}.

Definition store_of (held : pyval) (cached : option dict) : store :=
  {| _service_token := held; _cache_credentials := cached; _cache_user := None;
     trace := []; logs := [] |}.

Definition T1 : pyval := PDict [("service_token", PStr "T1"); ("exp", PInt 4600)].

Definition bearer (tok : string) : request :=
  {| AUTHORIZATION := Some ("Bearer " ++ tok); site_id := PStr "site" |}.

Definition extraction (req : request) : PloneJWTExtraction :=
  {| pje_request := req; config := Some cfg |}.

End Demo.

(** More tokens for the same world. *)
Module Demo2.

Definition load (text : string) : option PyJWT.jws :=
  if String.eqb text "code.abc" then
    Demo.signed [("auth_code", PStr "abc")]
  else Demo.load text.

Definition world_at (clock : Z) (registered : option settings)
    (bodies : list (string * string)) : world :=
  {| now := clock; jws_load := load; authority := Demo.answer bodies;
     IOAuth := registered |}.

Definition world_of (bodies : list (string * string)) : world :=
  world_at 1000 (Some Demo.cfg) bodies.

Definition alice_cache : dict :=
  [("jwt", PDict [("login", PStr "alice"); ("token", PStr "tok1")]);
   ("user", PStr "alice")].

End Demo2.

(** ** More vocabulary of the statements *)

(** Nothing was sent and the held service token is the same. *)
Definition nothing_sent (s s' : store) : Prop :=
  _service_token s' = _service_token s /\ trace s' = trace s.

(** At most one request was sent, a [validToken] POST, and the held
    service token is the same. *)
Definition at_most_validToken_sent (s s' : store) : Prop :=
  _service_token s' = _service_token s /\
  (trace s' = trace s \/
   exists server params,
     trace s' = (trace s ++ [{| oc_method := "POST";
                                oc_url := server ++ "valid_token";
                                oc_params := params |}])%list).

(** * Properties *)

(** ** The monad *)

Lemma bind_Ok {A B : Type} (c : M A) (k : A -> M B) (s s' : store) (a : A) :
  c s = (Ok a, s') -> bind c k s = k a s'.
Proof. intros H. unfold bind. rewrite H. reflexivity. Qed.

Lemma bind_Raise {A B : Type} (c : M A) (k : A -> M B) (s s' : store) (e : exc) :
  c s = (Raise e, s') -> bind c k s = (Raise e, s').
Proof. intros H. unfold bind. rewrite H. reflexivity. Qed.

Lemma bind_lift_Ok {A B : Type} (r : res A) (k : A -> M B) (s : store) (a : A) :
  r = Ok a -> bind (lift r) k s = k a s.
Proof. intros ->. reflexivity. Qed.

Lemma bind_lift_Raise {A B : Type} (r : res A) (k : A -> M B) (s : store) (e : exc) :
  r = Raise e -> bind (lift r) k s = (Raise e, s).
Proof. intros ->. reflexivity. Qed.

Lemma keeps_refl (s : store) : keeps_all_but_logs s s.
Proof. repeat split. Qed.

Lemma keeps_logger (r : logrec) (s : store) :
  keeps_all_but_logs s (snd (logger r s)).
Proof. repeat split. Qed.

Lemma decode_body_keeps (w : world) (self : settings) (body : string) (s : store) :
  keeps_all_but_logs s (snd (decode_body w self body s)).
Proof.
  unfold decode_body, try_except, lift, bind.
  destruct (jwt_decode w self body []) as [v | e]; [apply keeps_refl |].
  destruct (PyJWT.is_InvalidIssuedAtError e); [| apply keeps_refl].
  cbn. destruct (jwt_decode w self body NON_IAT_VERIFY); repeat split.
Qed.

(** ** [REST_API] and [call_auth] *)

Lemma rest_api_methods (call method url : string) :
  rest_api_get call REST_API = Some (method, url) ->
  method = "GET" \/ method = "POST".
Proof.
  unfold REST_API. cbn [rest_api_get].
  repeat match goal with
         | |- context [String.eqb call ?k] => destruct (String.eqb call k)
         end;
    intros H; inversion H; auto.
Qed.

Lemma call_auth_unfold (w : world) (self : settings) (call method url : string)
    (params : dict) (s : store) :
  rest_api_get call REST_API = Some (method, url) ->
  let c := {| oc_method := method; oc_url := _server self ++ url; oc_params := params |} in
  let resp := authority w (trace s) c in
  call_auth w self call params s =
  (if status resp =? 200 then decode_body w self (text resp)
   else logger (LogServerError (status resp) (text resp)) ;;; ret PNone)
    (on_the_wire w c s).
Proof.
  intros Hapi c resp. unfold call_auth. rewrite Hapi.
  destruct (rest_api_methods _ _ _ Hapi) as [-> | ->]; reflexivity.
Qed.

Lemma call_auth_trace (w : world) (self : settings) (call method url : string)
    (params : dict) (s : store) :
  rest_api_get call REST_API = Some (method, url) ->
  let s' := snd (call_auth w self call params s) in
  trace s' = (trace s ++ [{| oc_method := method; oc_url := _server self ++ url;
                             oc_params := params |}])%list /\
  _service_token s' = _service_token s /\
  _cache_credentials s' = _cache_credentials s /\
  _cache_user s' = _cache_user s.
Proof.
  intros Hapi. cbv zeta. rewrite (call_auth_unfold w self call method url params s Hapi).
  cbv zeta.
  set (c := {| oc_method := method; oc_url := _server self ++ url; oc_params := params |}).
  destruct (status (authority w (trace s) c) =? 200).
  - destruct (decode_body_keeps w self (text (authority w (trace s) c)) (on_the_wire w c s))
      as (H1 & H2 & H3 & H4).
    rewrite H1, H2, H3, H4. repeat split.
  - repeat split.
Qed.

(** ** [service_token] *)

Lemma service_token_stale (w : world) (self : settings) (s : store) :
  stale w s ->
  service_token w self s =
  (logger (LogMsg INFO "SERVICE TOKEN OBTAIN") ;;;
   result <- call_auth w self "getAuthToken" (Async.getAuthToken_params self) ;;
   if truthy result then
     set_service_token result ;;;
     held <- get_service_token ;;
     lift (subscript held "service_token")
   else ret PNone) s.
Proof.
  intros [Hf | (d & e & Hd & He & Hle)]; unfold service_token.
  - unfold bind at 1, get_service_token at 1. rewrite Hf. reflexivity.
  - unfold bind at 1, get_service_token at 1. rewrite Hd.
    assert (Ht : truthy (PDict d) = true) by (destruct d; [discriminate | reflexivity]).
    rewrite Ht.
    rewrite (bind_lift_Ok _ _ _ (PInt e)) by (cbn; rewrite He; reflexivity).
    rewrite (bind_lift_Ok _ _ _ false)
      by (cbn; f_equal; apply Z.ltb_ge; exact Hle).
    reflexivity.
Qed.

(** C2: a held token whose [exp] is strictly after the clock is returned
    as it is, the store (and with it the list of outbound calls) left
    untouched; otherwise exactly one [getAuthToken] call goes out, with the
    configured client id and client secret, and a result it yields is
    stored and its [service_token] returned. *)
Theorem service_token_accessor (w : world) (self : settings) (s : store) :
  (forall d e v,
      _service_token s = PDict d ->
      dict_get "exp" d = Some (PInt e) ->
      now w < e ->
      dict_get "service_token" d = Some v ->
      service_token w self s = (Ok v, s))
  /\
  (stale w s ->
   trace (snd (service_token w self s))
   = (trace s ++ [{| oc_method := "POST"; oc_url := _server self ++ "get_auth_token";
                     oc_params := [("client_id", PStr (_client_id self));
                                   ("client_secret", PStr (_client_password self));
                                   ("grant_type", PStr "service")] |}])%list)
  /\
  (forall result s1 v,
      stale w s ->
      call_auth w self "getAuthToken"
        [("client_id", PStr (_client_id self));
         ("client_secret", PStr (_client_password self));
         ("grant_type", PStr "service")]
        (snd (logger (LogMsg INFO "SERVICE TOKEN OBTAIN") s)) = (Ok result, s1) ->
      truthy result = true ->
      subscript result "service_token" = Ok v ->
      service_token w self s = (Ok v, snd (set_service_token result s1)) /\
      _service_token (snd (service_token w self s)) = result).
Proof.
  split; [| split].
  - intros d e v Hd He Hlt Hv. unfold service_token.
    unfold bind at 1, get_service_token at 1. rewrite Hd.
    assert (Ht : truthy (PDict d) = true) by (destruct d; [discriminate | reflexivity]).
    rewrite Ht.
    rewrite (bind_lift_Ok _ _ _ (PInt e)) by (cbn; rewrite He; reflexivity).
    rewrite (bind_lift_Ok _ _ _ true)
      by (cbn; f_equal; apply Z.ltb_lt; exact Hlt).
    unfold lift. cbn. rewrite Hv. reflexivity.
  - intros Hst. rewrite (service_token_stale w self s Hst).
    unfold bind at 1. cbn [logger].
    set (s0 := {| _service_token := _service_token s;
                  _cache_credentials := _cache_credentials s;
                  _cache_user := _cache_user s; trace := trace s;
                  logs := (logs s ++ [LogMsg INFO "SERVICE TOKEN OBTAIN"])%list |}).
    pose proof (call_auth_trace w self "getAuthToken" "POST" "get_auth_token"
                  (Async.getAuthToken_params self) s0 eq_refl) as (Htr & _).
    unfold bind at 1.
    destruct (call_auth w self "getAuthToken" (Async.getAuthToken_params self) s0)
      as [[result | e] s1] eqn:Hc; cbn [snd] in Htr.
    + destruct (truthy result).
      * unfold bind, set_service_token, get_service_token, lift. cbn. exact Htr.
      * exact Htr.
    + exact Htr.
  - intros result s1 v Hst Hc Ht Hv.
    assert (Heq : service_token w self s = (Ok v, snd (set_service_token result s1))).
    { rewrite (service_token_stale w self s Hst).
      unfold bind at 1. cbn [logger]. cbn [snd logger] in Hc.
      unfold Async.getAuthToken_params.
      rewrite (bind_Ok _ _ _ _ _ Hc). rewrite Ht.
      unfold bind, set_service_token, get_service_token, lift. cbn.
      rewrite Hv. reflexivity. }
    rewrite Heq. split; reflexivity.
Qed.

Lemma service_token_accessor_witness :
  service_token (Demo.world_of []) Demo.cfg (Demo.store_of Demo.T1 None)
  = (Ok (PStr "T1"), Demo.store_of Demo.T1 None)
  /\
  fst (service_token (Demo.world_of [("get_auth_token", "svc.T1")]) Demo.cfg
         (Demo.store_of PNone None)) = Ok (PStr "T1").
Proof.
  split.
  - apply (proj1 (service_token_accessor (Demo.world_of []) Demo.cfg
                    (Demo.store_of Demo.T1 None))
             [("service_token", PStr "T1"); ("exp", PInt 4600)] 4600 (PStr "T1"));
      [reflexivity | reflexivity | reflexivity | reflexivity].
  - pose proof (proj2 (proj2 (service_token_accessor
                                (Demo.world_of [("get_auth_token", "svc.T1")]) Demo.cfg
                                (Demo.store_of PNone None)))) as H.
    rewrite (proj1 (H Demo.T1 _ (PStr "T1") (or_introl eq_refl) eq_refl eq_refl eq_refl)).
    reflexivity.
Defined.

(** C7, as the code has it: when the issuing call yields no result (a
    response that is not 200, or an empty claims map), [service_token]
    raises nothing; it returns [None] and the held token stays as it was. *)
Theorem service_token_issue_failure_returns_None
    (w : world) (self : settings) (s s1 : store) (result : pyval)
    (Hstale : stale w s)
    (Hcall : call_auth w self "getAuthToken"
               [("client_id", PStr (_client_id self));
                ("client_secret", PStr (_client_password self));
                ("grant_type", PStr "service")]
               (snd (logger (LogMsg INFO "SERVICE TOKEN OBTAIN") s)) = (Ok result, s1))
    (Hnone : truthy result = false) :
  service_token w self s = (Ok PNone, s1) /\ _service_token s1 = _service_token s.
Proof.
  rewrite (service_token_stale w self s Hstale).
  unfold bind at 1. cbn [logger]. cbn [snd logger] in Hcall.
  unfold Async.getAuthToken_params.
  rewrite (bind_Ok _ _ _ _ _ Hcall). rewrite Hnone. split; [reflexivity |].
  pose proof (call_auth_trace w self "getAuthToken" "POST" "get_auth_token"
                (Async.getAuthToken_params self)
                (snd (logger (LogMsg INFO "SERVICE TOKEN OBTAIN") s)) eq_refl)
    as (_ & Hh & _).
  unfold Async.getAuthToken_params in Hh. cbn [snd logger] in Hh.
  rewrite Hcall in Hh. exact Hh.
Qed.

Lemma service_token_issue_failure_returns_None_witness :
  service_token (Demo.world_of []) Demo.cfg (Demo.store_of PNone None)
  = (Ok PNone,
     snd (call_auth (Demo.world_of []) Demo.cfg "getAuthToken"
            (Async.getAuthToken_params Demo.cfg)
            (snd (logger (LogMsg INFO "SERVICE TOKEN OBTAIN") (Demo.store_of PNone None))))).
Proof.
  apply (service_token_issue_failure_returns_None (Demo.world_of []) Demo.cfg
           (Demo.store_of PNone None) _ PNone (or_introl eq_refl) eq_refl eq_refl).
Defined.

(** The claim C7 as it is written fails: with an authority that answers
    500 the issuing call yields no result, and the accessor returns
    [None] where the claim wants an error raised. *)
Lemma service_token_issue_failure_not_raised :
  fst (call_auth (Demo.world_of []) Demo.cfg "getAuthToken"
         (Async.getAuthToken_params Demo.cfg)
         (snd (logger (LogMsg INFO "SERVICE TOKEN OBTAIN") (Demo.store_of PNone None))))
  = Ok PNone
  /\ ~ (exists e, fst (service_token (Demo.world_of []) Demo.cfg (Demo.store_of PNone None))
                 = Raise e).
Proof.
  split; [reflexivity |]. intros [e He]. vm_compute in He. discriminate He.
Qed.

(** ** [validate_token] *)

(** C9: [validate_token] subscripts the held token without looking whether
    there is one; with [None] held it raises (a [TypeError]), sends nothing
    and acquires nothing. *)
Theorem validate_token_needs_held_token
    (w : world) (self : settings) (req : request) (tok : pyval) (s : store)
    (Hnone : _service_token s = PNone) :
  validate_token w self req tok s = (Raise TypeError, s).
Proof.
  unfold validate_token, bind, get_service_token, lift. rewrite Hnone. reflexivity.
Qed.

Lemma validate_token_needs_held_token_witness :
  validate_token (Demo.world_of [("valid_token", "valid.alice")]) Demo.cfg
    (Demo.bearer "bearer.alice") (PStr "tok1") (Demo.store_of PNone (Some []))
  = (Raise TypeError, Demo.store_of PNone (Some [])).
Proof.
  apply (validate_token_needs_held_token _ _ _ _ (Demo.store_of PNone (Some [])) eq_refl).
Defined.

(** ** The clock-skew retry of [call_auth] *)

Lemma decode_sole_iat_failure (w : world) (self : settings) (body : string)
    (j : PyJWT.jws) (payload : dict) :
  jws_load w body = Some j ->
  PyJWT.jws_payload j = PDict payload ->
  PyJWT.verify_jws PyJWT.default_options j (_jwt_secret self) [_jwt_algorithm self] = Ok tt ->
  PyJWT.validate_iat payload (now w) = Raise (JwtError InvalidIssuedAtError) ->
  PyJWT.validate_nbf payload (now w) = Ok tt ->
  PyJWT.validate_exp payload (now w) = Ok tt ->
  PyJWT.validate_aud payload = Ok tt ->
  jwt_decode w self body [] = Raise (JwtError InvalidIssuedAtError) /\
  jwt_decode w self body NON_IAT_VERIFY = Ok (PDict payload).
Proof.
  intros Hload Hpay Hsig Hiat Hnbf Hexp Haud.
  unfold jwt_decode, PyJWT.decode. rewrite Hload, Hpay. split.
  - change (PyJWT.merge_options PyJWT.default_options []) with PyJWT.default_options.
    rewrite Hsig. cbn [res_bind]. unfold PyJWT.validate_claims.
    cbn [PyJWT.verify_iat PyJWT.default_options]. rewrite Hiat. reflexivity.
  - change (PyJWT.merge_options PyJWT.default_options NON_IAT_VERIFY)
      with {| PyJWT.verify_signature := true; PyJWT.verify_exp := true;
              PyJWT.verify_nbf := true; PyJWT.verify_iat := false;
              PyJWT.verify_aud := true |}.
    change (PyJWT.verify_jws _ j (_jwt_secret self) [_jwt_algorithm self])
      with (PyJWT.verify_jws PyJWT.default_options j (_jwt_secret self) [_jwt_algorithm self]).
    rewrite Hsig. cbn [res_bind]. unfold PyJWT.validate_claims.
    cbn [PyJWT.verify_iat PyJWT.verify_nbf PyJWT.verify_exp PyJWT.verify_aud].
    rewrite Hnbf, Hexp, Haud. reflexivity.
Qed.

(** C3: on a 200 response whose body fails to decode only because its
    [iat] is ahead of the clock, [call_auth] logs the skew, decodes once
    more with [verify_iat] off (signature and expiry checks still on) and
    returns the payload; a first failure of any other kind, a bad
    signature among them, leaves [call_auth] with that exception and
    without a second attempt. *)
Theorem call_auth_clock_skew_retry
    (w : world) (self : settings) (call method url : string) (params : dict) (s : store)
    (Hapi : rest_api_get call REST_API = Some (method, url))
    (H200 : status (authority w (trace s)
                      {| oc_method := method; oc_url := _server self ++ url;
                         oc_params := params |}) = 200) :
  let c := {| oc_method := method; oc_url := _server self ++ url; oc_params := params |} in
  let body := text (authority w (trace s) c) in
  (forall j payload,
      jws_load w body = Some j ->
      PyJWT.jws_payload j = PDict payload ->
      PyJWT.verify_jws PyJWT.default_options j (_jwt_secret self) [_jwt_algorithm self] = Ok tt ->
      PyJWT.validate_iat payload (now w) = Raise (JwtError InvalidIssuedAtError) ->
      PyJWT.validate_nbf payload (now w) = Ok tt ->
      PyJWT.validate_exp payload (now w) = Ok tt ->
      PyJWT.validate_aud payload = Ok tt ->
      call_auth w self call params s
      = (Ok (PDict payload),
         snd (logger (LogMsg ERROR "Error on Time at OAuth Server") (on_the_wire w c s))))
  /\
  (jwt_decode w self body [] = Raise (JwtError InvalidIssuedAtError) ->
   call_auth w self call params s
   = (jwt_decode w self body NON_IAT_VERIFY,
      snd (logger (LogMsg ERROR "Error on Time at OAuth Server") (on_the_wire w c s))))
  /\
  PyJWT.merge_options PyJWT.default_options NON_IAT_VERIFY
  = {| PyJWT.verify_signature := true; PyJWT.verify_exp := true;
       PyJWT.verify_nbf := true; PyJWT.verify_iat := false;
       PyJWT.verify_aud := true |}
  /\
  (forall e,
      jwt_decode w self body [] = Raise e ->
      e <> JwtError InvalidIssuedAtError ->
      call_auth w self call params s = (Raise e, on_the_wire w c s)).
Proof.
  intros c body.
  assert (Hcall : call_auth w self call params s
                  = decode_body w self body (on_the_wire w c s)).
  { rewrite (call_auth_unfold w self call method url params s Hapi). cbv zeta.
    rewrite H200. reflexivity. }
  assert (Hretry : jwt_decode w self body [] = Raise (JwtError InvalidIssuedAtError) ->
                   call_auth w self call params s
                   = (jwt_decode w self body NON_IAT_VERIFY,
                      snd (logger (LogMsg ERROR "Error on Time at OAuth Server")
                             (on_the_wire w c s)))).
  { intros Hfirst. rewrite Hcall. unfold decode_body, try_except, lift.
    rewrite Hfirst. reflexivity. }
  split; [| split; [exact Hretry | split; [reflexivity |]]].
  - intros j payload Hload Hpay Hsig Hiat Hnbf Hexp Haud.
    destruct (decode_sole_iat_failure w self body j payload
                Hload Hpay Hsig Hiat Hnbf Hexp Haud) as [Hfirst Hsecond].
    rewrite (Hretry Hfirst), Hsecond. reflexivity.
  - intros e Hfirst Hne. rewrite Hcall. unfold decode_body, try_except, lift.
    rewrite Hfirst.
    destruct e as [? | | | | | [ | | | | | ]]; try reflexivity.
    contradiction Hne; reflexivity.
Qed.

Lemma call_auth_clock_skew_retry_witness :
  fst (call_auth (Demo.world_of [("get_auth_token", "svc.skewed")]) Demo.cfg
         "getAuthToken" (Async.getAuthToken_params Demo.cfg) (Demo.store_of PNone None))
  = Ok (PDict [("service_token", PStr "T2"); ("iat", PInt 1005); ("exp", PInt 4605)])
  /\
  fst (call_auth (Demo.world_of [("get_auth_token", "svc.forged")]) Demo.cfg
         "getAuthToken" (Async.getAuthToken_params Demo.cfg) (Demo.store_of PNone None))
  = Raise (JwtError DecodeError).
Proof.
  split.
  - pose proof (proj1 (call_auth_clock_skew_retry
                         (Demo.world_of [("get_auth_token", "svc.skewed")]) Demo.cfg
                         "getAuthToken" "POST" "get_auth_token"
                         (Async.getAuthToken_params Demo.cfg) (Demo.store_of PNone None)
                         eq_refl eq_refl)) as H.
    rewrite (H {| PyJWT.jws_alg := "HS256"; PyJWT.jws_key := "s3cret";
                  PyJWT.jws_payload :=
                    PDict [("service_token", PStr "T2"); ("iat", PInt 1005);
                           ("exp", PInt 4605)] |}
               [("service_token", PStr "T2"); ("iat", PInt 1005); ("exp", PInt 4605)]
               eq_refl eq_refl eq_refl eq_refl eq_refl eq_refl eq_refl).
    reflexivity.
  - pose proof (proj2 (proj2 (proj2 (call_auth_clock_skew_retry
                         (Demo.world_of [("get_auth_token", "svc.forged")]) Demo.cfg
                         "getAuthToken" "POST" "get_auth_token"
                         (Async.getAuthToken_params Demo.cfg) (Demo.store_of PNone None)
                         eq_refl eq_refl)))) as H.
    rewrite (H (JwtError DecodeError) eq_refl ltac:(discriminate)).
    reflexivity.
Defined.

(** ** The role-mapping policy *)

Local Open Scope list_scope.

Lemma dict_set_skip (k : string) (v v0 : pyval) (a b : dict) :
  ~ In k (dict_keys a) ->
  dict_set k v (a ++ (k, v0) :: b) = (a ++ (k, v) :: b)%list.
Proof.
  induction a as [| [k' v'] a IH]; intros Hnot; cbn.
  - rewrite String.eqb_refl. reflexivity.
  - destruct (String.eqb k k') eqn:E.
    + apply String.eqb_eq in E. subst k'. exfalso. apply Hnot. left. reflexivity.
    + f_equal. apply IH. intros Hin. apply Hnot. right. exact Hin.
Qed.

Lemma dict_keys_translated (d : dict) :
  dict_keys (map translate_entry d) = dict_keys d.
Proof. unfold dict_keys. rewrite map_map. reflexivity. Qed.

Lemma translate_loop (todo done : dict) :
  NoDup (dict_keys (done ++ todo)) ->
  fold_left (fun acc kv => dict_set (fst kv) (PSetting (role_setting (snd kv))) acc)
    todo (map translate_entry done ++ todo)%list
  = (map translate_entry done ++ map translate_entry todo)%list.
Proof.
  revert done. induction todo as [| [k v] todo IH]; intros done Hnd; cbn [fold_left map].
  - reflexivity.
  - cbn [fst snd].
    rewrite dict_set_skip.
    + specialize (IH (done ++ [(k, v)])%list).
      rewrite map_app in IH. cbn [map] in IH. rewrite <- !app_assoc in IH.
      cbn [app] in IH. apply IH. exact Hnd.
    + rewrite dict_keys_translated. unfold dict_keys in *. rewrite map_app in Hnd.
      cbn [map fst] in Hnd. apply NoDup_remove_2 in Hnd.
      intros Hin. apply Hnd. apply in_or_app. left. exact Hin.
Qed.

Lemma translate_roles_map (roles : dict) :
  NoDup (dict_keys roles) ->
  translate_roles roles = map translate_entry roles.
Proof.
  intros Hnd. unfold translate_roles. apply (translate_loop roles []). exact Hnd.
Qed.

Lemma dict_mem_set_keys (k : string) (v : pyval) (d : dict) :
  In k (dict_keys d) -> dict_keys (dict_set k v d) = dict_keys d.
Proof.
  induction d as [| [k' v'] d IH]; cbn; intros Hin.
  - contradiction.
  - destruct (String.eqb k k') eqn:E; cbn.
    + reflexivity.
    + f_equal. apply IH. destruct Hin as [Heq | Hin]; [| exact Hin].
      subst k'. rewrite String.eqb_refl in E. discriminate.
Qed.

(** The loop never adds or drops a key, whatever the dictionary. *)
Lemma translate_roles_keys (roles : dict) :
  dict_keys (translate_roles roles) = dict_keys roles.
Proof.
  unfold translate_roles.
  assert (H : forall todo acc,
             incl (dict_keys todo) (dict_keys acc) ->
             dict_keys (fold_left
                          (fun acc kv => dict_set (fst kv) (PSetting (role_setting (snd kv))) acc)
                          todo acc) = dict_keys acc).
  { induction todo as [| [k v] todo IH]; intros acc Hincl; cbn [fold_left].
    - reflexivity.
    - cbn [fst snd]. rewrite IH.
      + apply dict_mem_set_keys. apply Hincl. left. reflexivity.
      + rewrite dict_mem_set_keys by (apply Hincl; left; reflexivity).
        intros x Hx. apply Hincl. right. exact Hx. }
  apply H. apply incl_refl.
Qed.

Lemma translate_roles_nil (roles : dict) :
  translate_roles roles = [] <-> roles = [].
Proof.
  split.
  - intros H. pose proof (translate_roles_keys roles) as Hk. rewrite H in Hk.
    destruct roles; [reflexivity | discriminate].
  - intros ->. reflexivity.
Qed.

Lemma dict_get_In (k : string) (v : pyval) (d : dict) :
  NoDup (dict_keys d) ->
  (dict_get k d = Some v <-> In (k, v) d).
Proof.
  induction d as [| [k' v'] d IH]; cbn; intros Hnd.
  - split; [discriminate | contradiction].
  - inversion Hnd as [| ? ? Hnot Hnd']; subst.
    destruct (String.eqb k k') eqn:E.
    + apply String.eqb_eq in E. subst k'. split.
      * intros H. inversion H. left. reflexivity.
      * intros [H | H]; [inversion H; reflexivity |].
        exfalso. apply Hnot. apply (in_map fst) in H. exact H.
    + rewrite (IH Hnd'). split.
      * intros H. right. exact H.
      * intros [H | H]; [| exact H]. inversion H. subst.
        rewrite String.eqb_refl in E. discriminate.
Qed.

Lemma dict_get_Permutation (k : string) (d d' : dict) :
  NoDup (dict_keys d) -> Permutation d d' -> dict_get k d' = dict_get k d.
Proof.
  intros Hnd Hp.
  assert (Hnd' : NoDup (dict_keys d')).
  { unfold dict_keys. eapply Permutation_NoDup; [| exact Hnd].
    apply Permutation_map. exact Hp. }
  destruct (dict_get k d) as [v |] eqn:E.
  - apply (dict_get_In k v d' Hnd'). eapply Permutation_in; [exact Hp |].
    apply (dict_get_In k v d Hnd). exact E.
  - destruct (dict_get k d') as [v' |] eqn:E'; [| reflexivity].
    apply (dict_get_In k v' d' Hnd') in E'.
    apply (Permutation_in _ (Permutation_sym Hp)) in E'.
    apply (dict_get_In k v' d Hnd) in E'. congruence.
Qed.

(** The policy on integers, the loop as the entry-wise image of the
    raw map, and what another order of the raw entries changes: nothing. *)
Lemma translate_roles_policy (roles roles' : dict) (n : Z)
    (Hkeys : NoDup (dict_keys roles)) (Hperm : Permutation roles roles') :
  role_setting (PInt n) = (if n =? 1 then Allow else if n =? 0 then Deny else Unset)
  /\ translate_roles roles
     = map (fun kv => (fst kv, PSetting (role_setting (snd kv)))) roles
  /\ Permutation (translate_roles roles) (translate_roles roles')
  /\ (forall k, dict_get k (translate_roles roles') = dict_get k (translate_roles roles)).
Proof.
  assert (Hkeys' : NoDup (dict_keys roles')).
  { unfold dict_keys. eapply Permutation_NoDup; [| exact Hkeys].
    apply Permutation_map. exact Hperm. }
  assert (Hp : Permutation (translate_roles roles) (translate_roles roles')).
  { rewrite (translate_roles_map roles Hkeys), (translate_roles_map roles' Hkeys').
    apply Permutation_map. exact Hperm. }
  split; [reflexivity | split; [| split]].
  - apply translate_roles_map. exact Hkeys.
  - exact Hp.
  - intros k. apply dict_get_Permutation; [| exact Hp].
    rewrite translate_roles_keys. exact Hkeys.
Qed.

Lemma dict_get_translated (k : string) (d : dict) :
  dict_get k (map translate_entry d)
  = option_map (fun v => PSetting (role_setting v)) (dict_get k d).
Proof.
  induction d as [| [k' v'] d IH]; cbn.
  - reflexivity.
  - destruct (String.eqb k k'); [reflexivity | exact IH].
Qed.

(** ** User resolution *)

Lemma init_data_outcome (self : oauth_user) (user_data result : pyval)
    (raw groups : dict) (display : pyval) (s : store) :
  subscript user_data "result" = Ok result ->
  subscript result "roles" = Ok (PDict raw) ->
  subscript result "groups" = Ok (PDict groups) ->
  subscript result "name" = Ok display ->
  fst (_init_data self user_data s)
  = match raw with
    | [] => Raise (KeyError "Plone OAuth User has no roles in this Scope")
    | _ :: _ =>
        Ok {| token := token self; login := login self; id := id self;
              _roles := PDict (translate_roles raw);
              _groups := member_groups groups; name := display |}
    end.
Proof.
  intros Hres Hroles Hgroups Hname. unfold _init_data.
  rewrite (bind_lift_Ok _ _ _ _ Hres), (bind_lift_Ok _ _ _ _ Hroles).
  rewrite (bind_lift_Ok _ _ _ raw) by reflexivity.
  rewrite (bind_lift_Ok _ _ _ _ Hres), (bind_lift_Ok _ _ _ _ Hgroups).
  rewrite (bind_lift_Ok _ _ _ groups) by reflexivity.
  rewrite (bind_lift_Ok _ _ _ _ Hres), (bind_lift_Ok _ _ _ _ Hname).
  unfold bind at 1. cbn [logger].
  rewrite (bind_lift_Ok _ _ _ (Z.of_nat (List.length (translate_roles raw)))) by reflexivity.
  destruct raw as [| kv raw].
  - reflexivity.
  - assert (Hlen : (Z.of_nat (List.length (translate_roles (kv :: raw))) =? 0) = false).
    { apply Z.eqb_neq.
      pose proof (translate_roles_keys (kv :: raw)) as Hk.
      apply (f_equal (@List.length string)) in Hk. unfold dict_keys in Hk.
      rewrite !length_map in Hk. rewrite Hk. cbn [List.length]. lia. }
    rewrite Hlen. reflexivity.
Qed.

(** C5: in [_init_data] every entry of the record's role map is mapped
    on its own, the integer 1 to [Allow], 0 to [Deny] and any other
    integer to [Unset]: the roles of the user are the entry-wise image of
    the raw map, no key is added or dropped, and no value in the map can
    make the mapping fail (of a record with a role entry, groups and a
    name, only the one with no role at all is refused).  A record that
    lists the same entries in another order gives the same setting for
    every key. *)
Theorem role_mapping_policy
    (self : oauth_user) (user_data user_data' result result' : pyval)
    (roles roles' groups groups' : dict) (display display' : pyval) (s s0 : store)
    (Hres : subscript user_data "result" = Ok result)
    (Hroles : subscript result "roles" = Ok (PDict roles))
    (Hgroups : subscript result "groups" = Ok (PDict groups))
    (Hname : subscript result "name" = Ok display)
    (Hres' : subscript user_data' "result" = Ok result')
    (Hroles' : subscript result' "roles" = Ok (PDict roles'))
    (Hgroups' : subscript result' "groups" = Ok (PDict groups'))
    (Hname' : subscript result' "name" = Ok display')
    (Hkeys : NoDup (dict_keys roles))
    (Hperm : Permutation roles roles')
    (Hsome : roles <> []) :
  exists u u',
    fst (_init_data self user_data s) = Ok u
    /\ fst (_init_data self user_data' s0) = Ok u'
    /\ _roles u = PDict (map (fun kv => (fst kv, PSetting (role_setting (snd kv)))) roles)
    /\ (forall k n,
           dict_get k roles = Some (PInt n) ->
           subscript (_roles u) k
           = Ok (PSetting (if n =? 1 then Allow else if n =? 0 then Deny else Unset)))
    /\ (forall k, dict_get k roles = None -> subscript (_roles u) k = Raise (KeyError k))
    /\ (forall k, subscript (_roles u') k = subscript (_roles u) k).
Proof.
  assert (Hsome' : roles' <> []).
  { intros ->. apply Permutation_sym, Permutation_nil in Hperm. contradiction. }
  pose proof (init_data_outcome self user_data result roles groups display s
                Hres Hroles Hgroups Hname) as Hu.
  pose proof (init_data_outcome self user_data' result' roles' groups' display' s0
                Hres' Hroles' Hgroups' Hname') as Hu'.
  destruct roles as [| kv roles]; [contradiction Hsome; reflexivity |].
  destruct roles' as [| kv' roles']; [contradiction Hsome'; reflexivity |].
  destruct (translate_roles_policy (kv :: roles) (kv' :: roles') 0 Hkeys Hperm)
    as (_ & Hmap & _ & Hsame).
  eexists. eexists. split; [exact Hu | split; [exact Hu' |]].
  cbn [_roles]. split; [rewrite Hmap; reflexivity |].
  split; [| split].
  - intros k n Hk. cbn [subscript]. rewrite Hmap.
    change (map (fun kv0 => (fst kv0, PSetting (role_setting (snd kv0)))) (kv :: roles))
      with (map translate_entry (kv :: roles)).
    rewrite dict_get_translated, Hk. reflexivity.
  - intros k Hk. cbn [subscript]. rewrite Hmap.
    change (map (fun kv0 => (fst kv0, PSetting (role_setting (snd kv0)))) (kv :: roles))
      with (map translate_entry (kv :: roles)).
    rewrite dict_get_translated, Hk. reflexivity.
  - intros k. cbn [subscript]. rewrite (Hsame k). reflexivity.
Qed.

Lemma role_mapping_policy_witness :
  exists u u',
    fst (_init_data
           {| token := PNone; login := PStr "alice"; id := PStr "alice";
              _roles := PDict []; _groups := []; name := PNone |}
           (PDict [("result",
                    PDict [("roles", PDict [("manager", PInt 1); ("guest", PInt 0);
                                            ("editor", PInt 2)]);
                           ("groups", PDict []); ("name", PStr "Alice A.")])])
           (Demo.store_of Demo.T1 None)) = Ok u
    /\ fst (_init_data
           {| token := PNone; login := PStr "alice"; id := PStr "alice";
              _roles := PDict []; _groups := []; name := PNone |}
           (PDict [("result",
                    PDict [("roles", PDict [("editor", PInt 2); ("guest", PInt 0);
                                            ("manager", PInt 1)]);
                           ("groups", PDict []); ("name", PStr "Alice A.")])])
           (Demo.store_of Demo.T1 None)) = Ok u'
    /\ _roles u = PDict [("manager", PSetting Allow); ("guest", PSetting Deny);
                         ("editor", PSetting Unset)]
    /\ subscript (_roles u') "guest" = Ok (PSetting Deny).
Proof.
  assert (Hnd : NoDup (dict_keys [("manager", PInt 1); ("guest", PInt 0); ("editor", PInt 2)])).
  { repeat constructor; cbn; intros H;
      repeat (destruct H as [H | H]; [discriminate H |]); exact H. }
  assert (Hp : Permutation [("manager", PInt 1); ("guest", PInt 0); ("editor", PInt 2)]
                 [("editor", PInt 2); ("guest", PInt 0); ("manager", PInt 1)]).
  { eapply perm_trans; [apply perm_swap |].
    eapply perm_trans; [apply perm_skip; apply perm_swap |].
    eapply perm_trans; [apply perm_swap |]. apply Permutation_refl. }
  destruct (role_mapping_policy
              {| token := PNone; login := PStr "alice"; id := PStr "alice";
                 _roles := PDict []; _groups := []; name := PNone |}
              (PDict [("result",
                       PDict [("roles", PDict [("manager", PInt 1); ("guest", PInt 0);
                                               ("editor", PInt 2)]);
                              ("groups", PDict []); ("name", PStr "Alice A.")])])
              (PDict [("result",
                       PDict [("roles", PDict [("editor", PInt 2); ("guest", PInt 0);
                                               ("manager", PInt 1)]);
                              ("groups", PDict []); ("name", PStr "Alice A.")])])
              _ _ _ _ [] [] (PStr "Alice A.") (PStr "Alice A.")
              (Demo.store_of Demo.T1 None) (Demo.store_of Demo.T1 None)
              eq_refl eq_refl eq_refl eq_refl eq_refl eq_refl eq_refl eq_refl
              Hnd Hp ltac:(discriminate))
    as (u & u' & Hu & Hu' & Hmap & Hint & _ & Hsame).
  exists u, u'. split; [exact Hu | split; [exact Hu' | split; [exact Hmap |]]].
  rewrite (Hsame "guest"%string). apply (Hint "guest"%string 0). reflexivity.
Defined.

(** C4, as the code has it: the check of [_init_data] is on the number of
    entries of the translated role map, and translation keeps every entry.
    Take a validated login in the cache, and a [getUser] answer that
    carries a role map, a group map and a name.  With an empty role map
    user resolution fails with a [KeyError], and [create_user] falls back
    to [AnonymousUser]; with a role map that is not empty the record is
    turned into an [OAuthPloneUser] carrying the translated roles, also
    when each of them is [Unset]. *)
Theorem create_user_by_role_map
    (w : world) (cfg : settings) (req : request) (s s1 s2 : store)
    (creds raw groups : dict)
    (tok who held user_token user_data result display : pyval)
    (Hreg : IOAuth w = Some cfg)
    (Hcache : _cache_credentials s = Some creds)
    (Hjwt : dict_get "jwt" creds = Some tok)
    (Huser : dict_get "user" creds = Some who)
    (Hheld : service_token w cfg s = (Ok held, s1))
    (Htoken : subscript tok "token" = Ok user_token)
    (Hcall : call_auth w cfg "getUser"
               [("service_token", held); ("user_token", user_token);
                ("scope", site_id req); ("user", who)] s1 = (Ok user_data, s2))
    (Hres : subscript user_data "result" = Ok result)
    (Hroles : subscript result "roles" = Ok (PDict raw))
    (Hgroups : subscript result "groups" = Ok (PDict groups))
    (Hname : subscript result "name" = Ok display) :
  fst (create_user w req s) = Ok tt /\
  _cache_user (snd (create_user w req s))
  = Some match raw with
         | [] => AnonymousUser
         | _ :: _ =>
             OAuthPloneUser
               {| token := tok; login := who; id := who;
                  _roles := PDict (translate_roles raw);
                  _groups := member_groups groups; name := display |}
         end.
Proof.
  assert (Htruthy : truthy user_data = true).
  { destruct user_data as [ | | | | | | d]; try discriminate Hres.
    destruct d; [discriminate Hres | reflexivity]. }
  set (self := {| token := tok; login := who; id := who;
                  _roles := PDict []; _groups := []; name := PNone |}).
  assert (Hinfo : fst (get_info w req self s)
                  = match raw with
                    | [] => Raise (KeyError "Plone OAuth User has no roles in this Scope")
                    | _ :: _ =>
                        Ok {| token := tok; login := who; id := who;
                              _roles := PDict (translate_roles raw);
                              _groups := member_groups groups; name := display |}
                    end).
  { unfold get_info.
    rewrite (bind_lift_Ok _ _ _ cfg) by (unfold getUtility; rewrite Hreg; reflexivity).
    rewrite (bind_Ok _ _ _ _ _ Hheld).
    rewrite (bind_lift_Ok _ _ _ _ Htoken).
    cbn [login self]. rewrite (bind_Ok _ _ _ _ _ Hcall). rewrite Htruthy. cbn [negb].
    apply (init_data_outcome self user_data result raw groups display s2
             Hres Hroles Hgroups Hname). }
  assert (Hinit : OAuthPloneUser_init s = (Ok self, s)).
  { unfold OAuthPloneUser_init, cache_credentials.
    unfold bind at 1. unfold bind at 1. unfold get_cache_credentials. rewrite Hcache.
    cbn [ret]. unfold subscript.
    rewrite (bind_lift_Ok _ _ _ tok) by (rewrite Hjwt; reflexivity).
    rewrite (bind_lift_Ok _ _ _ who) by (rewrite Huser; reflexivity).
    reflexivity. }
  assert (Hrun : exists s', create_user w req s = (Ok tt, s') /\
                 _cache_user s'
                 = Some match raw with
                        | [] => AnonymousUser
                        | _ :: _ =>
                            OAuthPloneUser
                              {| token := tok; login := who; id := who;
                                 _roles := PDict (translate_roles raw);
                                 _groups := member_groups groups; name := display |}
                        end).
  { unfold create_user, cache_credentials.
    unfold bind at 1. unfold bind at 1. unfold get_cache_credentials. rewrite Hcache.
    cbn [ret]. unfold dict_mem. rewrite Huser. cbn [negb].
    unfold bind at 1, try_except. rewrite (bind_Ok _ _ _ _ _ Hinit).
    unfold bind at 1.
    destruct (get_info w req self s) as [[u | e] s3]; cbn [fst] in Hinfo.
    - destruct raw; [discriminate Hinfo |]. inversion Hinfo; subst.
      eexists. split; reflexivity.
    - destruct raw; [| discriminate Hinfo]. inversion Hinfo; subst.
      eexists. split; reflexivity. }
  destruct Hrun as (s' & Hrun & Hu). rewrite Hrun. split; [reflexivity | exact Hu].
Qed.

Lemma create_user_by_role_map_witness :
  _cache_user
    (snd (create_user (Demo.world_of [("get_user", "user.noroles")])
            (Demo.bearer "bearer.alice")
            (Demo.store_of Demo.T1
               (Some [("jwt", PDict [("login", PStr "alice"); ("token", PStr "tok1")]);
                      ("user", PStr "alice")]))))
  = Some AnonymousUser.
Proof.
  apply (create_user_by_role_map
           (Demo.world_of [("get_user", "user.noroles")]) Demo.cfg
           (Demo.bearer "bearer.alice")
           (Demo.store_of Demo.T1
              (Some [("jwt", PDict [("login", PStr "alice"); ("token", PStr "tok1")]);
                     ("user", PStr "alice")]))
           _ _ _ [] [("staff", PInt 1)]
           (PDict [("login", PStr "alice"); ("token", PStr "tok1")])
           (PStr "alice") (PStr "T1") (PStr "tok1") _ _ (PStr "Alice A.")
           eq_refl eq_refl eq_refl eq_refl eq_refl eq_refl eq_refl
           eq_refl eq_refl eq_refl eq_refl).
Defined.

(** The claim C4 as it is written fails on its own scenario: the role map
    [{"editor": 2}] translates to [Unset] only, and still [create_user]
    builds an [OAuthPloneUser] and no anonymous user. *)
Lemma create_user_all_Unset_not_anonymous :
  translate_roles [("editor", PInt 2)] = [("editor", PSetting Unset)]
  /\ fst (create_user (Demo.world_of [("get_user", "user.editor2")])
            (Demo.bearer "bearer.alice")
            (Demo.store_of Demo.T1
               (Some [("jwt", PDict [("login", PStr "alice"); ("token", PStr "tok1")]);
                      ("user", PStr "alice")]))) = Ok tt
  /\ _cache_user
       (snd (create_user (Demo.world_of [("get_user", "user.editor2")])
               (Demo.bearer "bearer.alice")
               (Demo.store_of Demo.T1
                  (Some [("jwt", PDict [("login", PStr "alice"); ("token", PStr "tok1")]);
                         ("user", PStr "alice")]))))
     = Some (OAuthPloneUser
               {| token := PDict [("login", PStr "alice"); ("token", PStr "tok1")];
                  login := PStr "alice"; id := PStr "alice";
                  _roles := PDict [("editor", PSetting Unset)];
                  _groups := ["staff"%string]; name := PStr "Alice A." |})
  /\ _cache_user
       (snd (create_user (Demo.world_of [("get_user", "user.editor2")])
               (Demo.bearer "bearer.alice")
               (Demo.store_of Demo.T1
                  (Some [("jwt", PDict [("login", PStr "alice"); ("token", PStr "tok1")]);
                         ("user", PStr "alice")]))))
     <> Some AnonymousUser.
Proof.
  split; [reflexivity | split; [reflexivity | split; [reflexivity |]]].
  vm_compute. discriminate.
Qed.

(** ** Credential extraction *)

Lemma dict_get_set_same (k : string) (v : pyval) (d : dict) :
  dict_get k (dict_set k v d) = Some v.
Proof.
  induction d as [| [k' v'] d IH]; cbn.
  - rewrite String.eqb_refl. reflexivity.
  - destruct (String.eqb k k') eqn:E; cbn; rewrite E; [reflexivity | exact IH].
Qed.

Lemma dict_get_set_other (k k' : string) (v : pyval) (d : dict) :
  k <> k' -> dict_get k (dict_set k' v d) = dict_get k d.
Proof.
  intros Hne. induction d as [| [k0 v0] d IH]; cbn.
  - destruct (String.eqb k k') eqn:E; [| reflexivity].
    apply String.eqb_eq in E. contradiction.
  - destruct (String.eqb k' k0) eqn:E; cbn.
    + apply String.eqb_eq in E. subst k0.
      destruct (String.eqb k k') eqn:E'; [| reflexivity].
      apply String.eqb_eq in E'. contradiction.
    + destruct (String.eqb k k0); [reflexivity | exact IH].
Qed.


Lemma validate_token_keeps_cache (w : world) (self : settings) (req : request)
    (tok : pyval) (s : store) :
  _cache_credentials (snd (validate_token w self req tok s)) = _cache_credentials s.
Proof.
  unfold validate_token. unfold bind at 1. unfold get_service_token at 1.
  cbv beta iota.
  destruct (subscript (_service_token s) "service_token") as [code | e] eqn:Hcode.
  - rewrite (bind_lift_Ok _ _ _ code) by reflexivity.
    pose proof (call_auth_trace w self "validToken" "POST" "valid_token"
                  [("code", code); ("token", tok); ("scope", site_id req)] s eq_refl)
      as (_ & _ & Hcc & _).
    unfold bind at 1.
    destruct (call_auth w self "validToken"
                [("code", code); ("token", tok); ("scope", site_id req)] s)
      as [[result | e] s1]; cbn [snd] in Hcc; [| exact Hcc].
    destruct (truthy result); [| exact Hcc].
    destruct (contains "user" result) as [[|] | e]; cbn; exact Hcc.
  - rewrite (bind_lift_Raise _ _ _ e) by reflexivity. reflexivity.
Qed.

Lemma bind_same_continuation {A B : Type} (c c' : M A) (k : A -> M B) (s : store) :
  c s = c' s -> bind c k s = bind c' k s.
Proof. intros H. unfold bind. rewrite H. reflexivity. Qed.


(** [self.config] is what the registry holds, and the credential cache
    exists once [__init__] has run. *)
Lemma PloneJWTExtraction_init_config (w : world) (req : request) (s : store) :
  fst (PloneJWTExtraction_init w req s) = Ok {| pje_request := req; config := IOAuth w |}
  /\ _cache_credentials (snd (PloneJWTExtraction_init w req s))
     = Some match _cache_credentials s with
            | Some d => d
            | None => []
            end.
Proof.
  unfold PloneJWTExtraction_init, getUtility, try_except, bind, lift, ret, logger,
    get_cache_credentials, set_cache_credentials.
  destruct (IOAuth w); cbn; destruct (_cache_credentials s) eqn:Hcache; cbn;
    rewrite ?Hcache; split; reflexivity.
Qed.

Lemma extract_user_no_header (w : world) (self : PloneJWTExtraction) (s : store)
    (cached : dict) :
  AUTHORIZATION (pje_request self) = None ->
  _cache_credentials s = Some cached ->
  extract_user w self s = (Ok [], snd (set_cache_credentials cached s)).
Proof.
  intros Hheader Hcache. unfold extract_user. rewrite Hheader.
  unfold bind, ret, cache_credentials, get_cache_credentials. cbn.
  rewrite Hcache. reflexivity.
Qed.

Lemma extract_user_other_scheme (w : world) (self : PloneJWTExtraction) (s : store)
    (cfg : settings) (header schema sep encoded : string) (cached : dict) :
  AUTHORIZATION (pje_request self) = Some header ->
  config self = Some cfg ->
  partition header = (schema, sep, encoded) ->
  String.eqb (lower schema) "bearer" = false ->
  _cache_credentials s = Some cached ->
  extract_user w self s = (Ok [], snd (set_cache_credentials cached s)).
Proof.
  intros Hheader Hcfg Hpart Hscheme Hcache. unfold extract_user.
  rewrite Hheader, Hcfg, Hpart, Hscheme.
  unfold bind, ret, cache_credentials, get_cache_credentials. cbn.
  rewrite Hcache. reflexivity.
Qed.

(** What happens to a bearer token that [jwt.decode] refuses: a
    [DecodeError] is logged and leaves the credentials empty, any other
    exception of the library leaves [extract_user] as it is. *)
Lemma extract_user_decode_failure (w : world) (self : PloneJWTExtraction) (s : store)
    (cfg : settings) (header schema sep encoded : string) (e : exc) (cached : dict) :
  AUTHORIZATION (pje_request self) = Some header ->
  config self = Some cfg ->
  partition header = (schema, sep, encoded) ->
  lower schema = "bearer"%string ->
  is_ascii encoded = true ->
  jwt_decode w cfg encoded [] = Raise e ->
  _cache_credentials s = Some cached ->
  extract_user w self s
  = if PyJWT.is_DecodeError e
    then (Ok [], snd (set_cache_credentials cached
                        (snd (logger (LogMsg WARNING "Invalid JWT token") s))))
    else (Raise e, s).
Proof.
  intros Hheader Hcfg Hpart Hbearer Hascii Hdecode Hcache. unfold extract_user.
  rewrite Hheader, Hcfg, Hpart, Hbearer.
  cbn [String.eqb Ascii.eqb Bool.eqb].
  unfold encode_ascii. rewrite Hascii.
  unfold bind at 1. rewrite (bind_lift_Ok _ _ _ encoded) by reflexivity.
  unfold bind at 1. unfold try_except.
  rewrite (bind_lift_Raise _ _ _ _ Hdecode).
  destruct (PyJWT.is_DecodeError e); [| reflexivity].
  unfold bind, ret, logger, cache_credentials, get_cache_credentials. cbn.
  rewrite Hcache. reflexivity.
Qed.

(** C6 at a failing input: the bearer token is well signed and its [exp]
    lies in the past.  Local decode fails with [ExpiredSignatureError],
    which the [except jwt.exceptions.DecodeError] clause does not cover,
    and [extract_user] raises it instead of returning empty credentials. *)
Theorem extract_user_expired_token_raises :
  jwt_decode (Demo.world_of []) Demo.cfg "bearer.expired" []
  = Raise (JwtError ExpiredSignatureError)
  /\ extract_user (Demo.world_of []) (Demo.extraction (Demo.bearer "bearer.expired"))
       (Demo.store_of Demo.T1 (Some []))
     = (Raise (JwtError ExpiredSignatureError), Demo.store_of Demo.T1 (Some [])).
Proof. split; reflexivity. Qed.


Section DecodedBearer.

(** A request whose [AUTHORIZATION] header carries a bearer token that
    [jwt.decode] accepts, where the utility is registered. *)
Variables (w : world) (cfg : settings) (req : request).
Variables (header schema sep encoded : string) (claims : dict).
Hypothesis Hreg : IOAuth w = Some cfg.
Hypothesis Hheader : AUTHORIZATION req = Some header.
Hypothesis Hpart : partition header = (schema, sep, encoded).
Hypothesis Hbearer : lower schema = "bearer"%string.
Hypothesis Hascii : is_ascii encoded = true.
Hypothesis Hdecode : jwt_decode w cfg encoded [] = Ok (PDict claims).

(** The run of [extract_user] on a bearer header whose token decodes,
    up to the remote validation. *)
Lemma extract_user_decoded (s : store) :
  extract_user w {| pje_request := req; config := Some cfg |} s
  = (creds <-
       (presented <- lift (subscript (PDict claims) "token") ;;
        validation <- validate_token w cfg req presented ;;
        if negb (is_None validation) then
          claimed <- lift (subscript (PDict claims) "login") ;;
          if py_eq validation claimed
          then ret (dict_set "user" validation [("jwt", PDict claims)])
          else ret [("jwt", PDict claims)]
        else ret [("jwt", PDict claims)]) ;;
     cached <- cache_credentials ;;
     set_cache_credentials (dict_update cached creds) ;;;
     ret creds) s.
Proof.
  unfold extract_user. cbn [pje_request config]. rewrite Hheader, Hpart, Hbearer.
  cbn [String.eqb Ascii.eqb Bool.eqb].
  apply bind_same_continuation.
  unfold encode_ascii. rewrite Hascii.
  rewrite (bind_lift_Ok _ _ _ encoded) by reflexivity.
  assert (Htry : try_except
                   (claims <- lift (jwt_decode w cfg encoded []) ;;
                    ret (dict_set "jwt" claims []))
                   PyJWT.is_DecodeError
                   (logger (LogMsg WARNING "Invalid JWT token") ;;; ret []) s
                 = (Ok [("jwt", PDict claims)], s)).
  { unfold try_except. rewrite (bind_lift_Ok _ _ _ _ Hdecode). reflexivity. }
  rewrite (bind_Ok _ _ _ _ _ Htry).
  change (dict_mem "jwt" [("jwt", PDict claims)]) with true. cbv iota.
  rewrite (bind_lift_Ok _ _ _ cfg) by (unfold getUtility; rewrite Hreg; reflexivity).
  rewrite (bind_lift_Ok _ _ _ (PDict claims)) by reflexivity.
  reflexivity.
Qed.


(** C10, as the code has it: a decoded token without a ['token'] claim
    makes [extract_user] raise [KeyError] before anything is sent; one
    with ['token'] and without ['login'] raises [KeyError] only when the
    remote validation returns something other than [None], because the
    [login] claim is read after the [is not None] test; when the
    validation returns [None] the credentials hold the decoded claims and
    no ['user']. *)
Theorem extract_user_missing_claims (s : store) :
  (dict_get "token" claims = None ->
   extract_user w {| pje_request := req; config := Some cfg |} s
   = (Raise (KeyError "token"), s))
  /\
  (forall presented validation s1,
      dict_get "token" claims = Some presented ->
      dict_get "login" claims = None ->
      validate_token w cfg req presented s = (Ok validation, s1) ->
      validation <> PNone ->
      extract_user w {| pje_request := req; config := Some cfg |} s
      = (Raise (KeyError "login"), s1))
  /\
  (forall presented s1 cached,
      dict_get "token" claims = Some presented ->
      validate_token w cfg req presented s = (Ok PNone, s1) ->
      _cache_credentials s = Some cached ->
      extract_user w {| pje_request := req; config := Some cfg |} s
      = (Ok [("jwt", PDict claims)],
         snd (set_cache_credentials (dict_update cached [("jwt", PDict claims)]) s1))).
Proof.
  rewrite (extract_user_decoded s).
  split; [| split].
  - intros Htoken. unfold bind at 1. unfold subscript. rewrite Htoken. reflexivity.
  - intros presented validation s1 Htoken Hlogin Hremote Hsome.
    unfold bind at 1. unfold subscript. rewrite Htoken.
    rewrite (bind_lift_Ok _ _ _ presented) by reflexivity.
    rewrite (bind_Ok _ _ _ _ _ Hremote).
    assert (Hnot : negb (is_None validation) = true)
      by (destruct validation; try reflexivity; contradiction Hsome; reflexivity).
    rewrite Hnot, Hlogin. reflexivity.
  - intros presented s1 cached Htoken Hremote Hcache.
    pose proof (validate_token_keeps_cache w cfg req presented s) as Hkeep.
    rewrite Hremote in Hkeep. cbn [snd] in Hkeep. rewrite Hcache in Hkeep.
    unfold bind at 1. unfold subscript. rewrite Htoken.
    rewrite (bind_lift_Ok _ _ _ presented) by reflexivity.
    rewrite (bind_Ok _ _ _ _ _ Hremote). cbn [is_None negb].
    unfold ret, bind, cache_credentials, get_cache_credentials, set_cache_credentials.
    cbn. rewrite Hkeep. reflexivity.
Qed.

End DecodedBearer.



Lemma extract_user_missing_claims_witness :
  fst (extract_user (Demo.world_of []) (Demo.extraction (Demo.bearer "bearer.notoken"))
         (Demo.store_of Demo.T1 (Some []))) = Raise (KeyError "token")
  /\
  fst (extract_user (Demo.world_of [("valid_token", "valid.bob")])
         (Demo.extraction (Demo.bearer "bearer.nologin"))
         (Demo.store_of Demo.T1 (Some []))) = Raise (KeyError "login")
  /\
  fst (extract_user (Demo.world_of []) (Demo.extraction (Demo.bearer "bearer.nologin"))
         (Demo.store_of Demo.T1 (Some []))) = Ok [("jwt", PDict [("token", PStr "tok1")])].
Proof.
  unfold Demo.extraction. split; [| split].
  - rewrite (proj1 (extract_user_missing_claims (Demo.world_of []) Demo.cfg
                      (Demo.bearer "bearer.notoken")
                      ("Bearer bearer.notoken") "Bearer" " " "bearer.notoken"
                      [("login", PStr "alice")]
                      eq_refl eq_refl eq_refl eq_refl eq_refl eq_refl
                      (Demo.store_of Demo.T1 (Some []))) eq_refl).
    reflexivity.
  - rewrite (proj1 (proj2 (extract_user_missing_claims
                      (Demo.world_of [("valid_token", "valid.bob")]) Demo.cfg
                      (Demo.bearer "bearer.nologin")
                      ("Bearer bearer.nologin") "Bearer" " " "bearer.nologin"
                      [("token", PStr "tok1")]
                      eq_refl eq_refl eq_refl eq_refl eq_refl eq_refl
                      (Demo.store_of Demo.T1 (Some []))))
               (PStr "tok1") (PStr "bob") _ eq_refl eq_refl eq_refl ltac:(discriminate)).
    reflexivity.
  - rewrite (proj2 (proj2 (extract_user_missing_claims
                      (Demo.world_of []) Demo.cfg
                      (Demo.bearer "bearer.nologin")
                      ("Bearer bearer.nologin") "Bearer" " " "bearer.nologin"
                      [("token", PStr "tok1")]
                      eq_refl eq_refl eq_refl eq_refl eq_refl eq_refl
                      (Demo.store_of Demo.T1 (Some []))))
               (PStr "tok1") _ [] eq_refl eq_refl eq_refl).
    reflexivity.
Defined.

(** The claim C10 as it is written fails: the token below decodes to
    claims without a ['login'], the authority answers the validation with
    500, and [extract_user] returns credentials, no [KeyError]. *)
Lemma extract_user_missing_login_no_KeyError :
  jwt_decode (Demo.world_of []) Demo.cfg "bearer.nologin" []
  = Ok (PDict [("token", PStr "tok1")])
  /\ dict_get "login" [("token", PStr "tok1")] = None
  /\ fst (extract_user (Demo.world_of []) (Demo.extraction (Demo.bearer "bearer.nologin"))
            (Demo.store_of Demo.T1 (Some [])))
     = Ok [("jwt", PDict [("token", PStr "tok1")])]
  /\ ~ (exists k,
           fst (extract_user (Demo.world_of [])
                  (Demo.extraction (Demo.bearer "bearer.nologin"))
                  (Demo.store_of Demo.T1 (Some []))) = Raise (KeyError k)).
Proof.
  split; [reflexivity | split; [reflexivity | split; [reflexivity |]]].
  intros [k Hk]. vm_compute in Hk. discriminate Hk.
Qed.

(** ** Overlapping calls of [service_token] *)

Module AsyncFacts.
Import Async.

(** Run without interruption, the two pieces are [service_token]. *)
Lemma begin_then_resume (w : world) (self : settings) (s : store) :
  Some (service_token w self s)
  = match begin w self s with
    | (Finished r, s') => Some (r, s')
    | (Awaiting resp, s') => returned (resume w self resp s')
    | (Start, _) => None
    end.
Proof.
  unfold service_token, begin.
  unfold bind at 1, get_service_token at 1. cbv beta iota.
  assert (Hsend :
            Some ((logger (LogMsg INFO "SERVICE TOKEN OBTAIN") ;;;
                   result <- call_auth w self "getAuthToken"
                               [("client_id", PStr (_client_id self));
                                ("client_secret", PStr (_client_password self));
                                ("grant_type", PStr "service")] ;;
                   if truthy result then
                     set_service_token result ;;;
                     held <- get_service_token ;;
                     lift (subscript held "service_token")
                   else ret PNone) s)
            = match send w self s with
              | (Finished r, s') => Some (r, s')
              | (Awaiting resp, s') => returned (resume w self resp s')
              | (Start, _) => None
              end).
  { set (c := getAuthToken_call self).
    set (s0 := snd (logger (LogMsg INFO "SERVICE TOKEN OBTAIN") s)).
    set (resp := authority w (trace s0) c).
    set (k := fun result : pyval =>
                if truthy result then
                  set_service_token result ;;;
                  held <- get_service_token ;; lift (subscript held "service_token")
                else ret PNone).
    assert (Hs : send w self s = (Awaiting resp, on_the_wire w c s0)) by reflexivity.
    rewrite Hs. unfold resume. fold k.
    transitivity
      (Some (bind (if status resp =? 200 then decode_body w self (text resp)
                   else logger (LogServerError (status resp) (text resp)) ;;; ret PNone)
               k (on_the_wire w c s0))).
    - reflexivity.
    - destruct (bind (if status resp =? 200 then decode_body w self (text resp)
                      else logger (LogServerError (status resp) (text resp)) ;;; ret PNone)
                  k (on_the_wire w c s0)) as [r s2].
      reflexivity. }
  destruct (truthy (_service_token s)); [| exact Hsend].
  unfold bind at 1, lift at 1.
  destruct (subscript (_service_token s) "exp") as [exp | e]; cbn [res_bind]; [| reflexivity].
  unfold bind at 1, lift at 1.
  destruct (py_gt_int exp (now w)) as [[|] | e]; [reflexivity | exact Hsend | reflexivity].
Qed.

Local Open Scope nat_scope.

Lemma renewals_sent (self : settings) (s s' : store) :
  trace s' = trace s ++ [getAuthToken_call self] ->
  renewals self s' = S (renewals self s).
Proof.
  intros Ht. unfold renewals. rewrite Ht, filter_app, length_app. cbn [filter].
  unfold is_renewal at 2. cbn [oc_url getAuthToken_call]. rewrite String.eqb_refl.
  cbn [List.length]. lia.
Qed.

Lemma renewals_same_trace (self : settings) (s s' : store) :
  trace s' = trace s -> renewals self s' = renewals self s.
Proof. intros Ht. unfold renewals. rewrite Ht. reflexivity. Qed.

Lemma send_awaits (w : world) (self : settings) (s : store) :
  exists resp s',
    send w self s = (Awaiting resp, s') /\
    trace s' = trace s ++ [getAuthToken_call self].
Proof. eexists. eexists. split; reflexivity. Qed.

(** [begin] leaves the task started and sends at most one request. *)
Lemma begin_cases (w : world) (self : settings) (s : store) :
  (exists r, begin w self s = (Finished r, s)) \/
  (exists resp s',
      begin w self s = (Awaiting resp, s') /\
      trace s' = trace s ++ [getAuthToken_call self]).
Proof.
  unfold begin. destruct (truthy (_service_token s)); [| right; apply send_awaits].
  destruct (exp <~ subscript (_service_token s) "exp" ;; py_gt_int exp (now w))
    as [[|] | e].
  - left. eexists. reflexivity.
  - right. apply send_awaits.
  - left. eexists. reflexivity.
Qed.

(** [resume] finishes the task and sends nothing. *)
Lemma resume_finishes (w : world) (self : settings) (resp : response) (s : store) :
  exists r s', resume w self resp s = (Finished r, s') /\ trace s' = trace s.
Proof.
  unfold resume.
  set (k := fun result : pyval =>
              if truthy result then
                set_service_token result ;;;
                held <- get_service_token ;; lift (subscript held "service_token")
              else ret PNone).
  assert (Hk : forall result s1, trace (snd (k result s1)) = trace s1).
  { intros result s1. unfold k. destruct (truthy result); [| reflexivity].
    unfold bind, set_service_token, get_service_token, lift. cbn.
    destruct (subscript result "service_token"); reflexivity. }
  assert (Hfirst : trace (snd ((if (status resp =? 200)%Z then decode_body w self (text resp)
                                else logger (LogServerError (status resp) (text resp)) ;;;
                                     ret PNone) s)) = trace s).
  { destruct ((status resp =? 200)%Z).
    - apply (decode_body_keeps w self (text resp) s).
    - reflexivity. }
  unfold bind at 1.
  destruct ((if (status resp =? 200)%Z then decode_body w self (text resp)
             else logger (LogServerError (status resp) (text resp)) ;;; ret PNone) s)
    as [[result | e] s1]; cbn [snd] in Hfirst.
  - specialize (Hk result s1). fold k. destruct (k result s1) as [r s2].
    exists r, s2. split; [reflexivity |]. cbn [snd] in Hk. congruence.
  - exists (Raise e), s1. split; [reflexivity | exact Hfirst].
Qed.

Lemma unstarted_set_task (i : nat) (t t' : task) (ts : list task) :
  nth_error ts i = Some t' ->
  t <> Start ->
  unstarted (set_task i t ts) + (match t' with Start => 1 | _ => 0 end) = unstarted ts.
Proof.
  revert i. induction ts as [| t0 ts IH]; intros i Hnth Hne.
  - destruct i; discriminate Hnth.
  - destruct i as [| i]; cbn [nth_error] in Hnth.
    + inversion Hnth. subst t0. cbn [set_task]. unfold unstarted. cbn [filter].
      destruct t; [contradiction Hne; reflexivity | |];
        destruct t'; cbn [List.length]; lia.
    + cbn [set_task]. specialize (IH i Hnth Hne). unfold unstarted in *. cbn [filter].
      destruct t0; cbn [List.length]; lia.
Qed.

Lemma step_bound (w : world) (self : settings) (i : nat) (s : store) (ts : list task) :
  renewals self (fst (step w self i (s, ts))) + unstarted (snd (step w self i (s, ts)))
  <= renewals self s + unstarted ts.
Proof.
  unfold step. destruct (nth_error ts i) as [[| resp | r] |] eqn:Hnth; cbn [fst snd];
    try lia.
  - destruct (begin_cases w self s) as [[r Hb] | (resp & s' & Hb & Ht)]; rewrite Hb;
      cbn [fst snd].
    + pose proof (unstarted_set_task i (Finished r) Start ts Hnth ltac:(discriminate)) as H.
      cbv iota in H. lia.
    + pose proof (unstarted_set_task i (Awaiting resp) Start ts Hnth ltac:(discriminate))
        as H.
      cbv iota in H. rewrite (renewals_sent self s s' Ht). lia.
  - destruct (resume_finishes w self resp s) as (r & s' & Hr & Ht). rewrite Hr.
    cbn [fst snd].
    pose proof (unstarted_set_task i (Finished r) (Awaiting resp) ts Hnth ltac:(discriminate))
      as H.
    cbv iota in H. rewrite (renewals_same_trace self s s' Ht). lia.
Qed.

Lemma unstarted_le_length (ts : list task) : unstarted ts <= List.length ts.
Proof. unfold unstarted. apply filter_length_le. Qed.

(** C8, as the code has it: nothing joins overlapping renewals.  However
    the event loop interleaves the calls of [service_token], each call
    sends at most one [getAuthToken] request, so [n] calls send at most
    [n] (two for a pair); and a call that starts while a token with a
    later [exp] is held sends none. *)
Theorem renewals_one_per_call
    (w : world) (self : settings) (schedule : list nat) (s : store) (ts : list task) :
  renewals self (fst (run w self schedule (s, ts))) <= renewals self s + List.length ts
  /\ (forall d e,
         _service_token s = PDict d ->
         dict_get "exp" d = Some (PInt e) ->
         (now w < e)%Z ->
         begin w self s = (Finished (subscript (PDict d) "service_token"), s)).
Proof.
  split.
  - assert (H : renewals self (fst (run w self schedule (s, ts)))
                + unstarted (snd (run w self schedule (s, ts)))
                <= renewals self s + unstarted ts).
    { unfold run. revert s ts. induction schedule as [| i schedule IH]; intros s ts.
      - cbn [fold_left fst snd]. lia.
      - cbn [fold_left]. pose proof (step_bound w self i s ts) as Hstep.
        destruct (step w self i (s, ts)) as [s' ts']. cbn [fst snd] in Hstep.
        specialize (IH s' ts'). lia. }
    pose proof (unstarted_le_length ts). lia.
  - intros d e Hd He Hlt. unfold begin. rewrite Hd.
    assert (Ht : truthy (PDict d) = true) by (destruct d; [discriminate | reflexivity]).
    rewrite Ht. cbn [subscript]. rewrite He. cbn [res_bind py_gt_int].
    rewrite (proj2 (Z.ltb_lt _ _) Hlt). reflexivity.
Qed.

Lemma renewals_one_per_call_witness :
  renewals Demo.cfg
    (fst (run (Demo.world_of [("get_auth_token", "svc.T1")]) Demo.cfg [0; 1; 0; 1]
            (Demo.store_of PNone None, [Start; Start]))) <= 2
  /\ begin (Demo.world_of []) Demo.cfg (Demo.store_of Demo.T1 None)
     = (Finished (Ok (PStr "T1")), Demo.store_of Demo.T1 None).
Proof.
  split.
  - apply (proj1 (renewals_one_per_call (Demo.world_of [("get_auth_token", "svc.T1")])
                    Demo.cfg [0; 1; 0; 1] (Demo.store_of PNone None) [Start; Start])).
  - apply (proj2 (renewals_one_per_call (Demo.world_of []) Demo.cfg []
                    (Demo.store_of Demo.T1 None) [])
             [("service_token", PStr "T1"); ("exp", PInt 4600)] 4600%Z
             eq_refl eq_refl eq_refl).
Defined.

(** The claim C8 as it is written fails: no token is held, two calls of
    [service_token] both reach the request before either response is
    handled, and two [getAuthToken] calls go out, one for each. *)
Lemma two_overlapping_calls_renew_twice :
  _service_token (Demo.store_of PNone None) = PNone
  /\ run (Demo.world_of [("get_auth_token", "svc.T1")]) Demo.cfg [0; 1; 0; 1]
       (Demo.store_of PNone None, [Start; Start])
     = (fst (run (Demo.world_of [("get_auth_token", "svc.T1")]) Demo.cfg [0; 1; 0; 1]
               (Demo.store_of PNone None, [Start; Start])),
        [Finished (Ok (PStr "T1")); Finished (Ok (PStr "T1"))])
  /\ renewals Demo.cfg
       (fst (run (Demo.world_of [("get_auth_token", "svc.T1")]) Demo.cfg [0; 1; 0; 1]
               (Demo.store_of PNone None, [Start; Start]))) = 2
  /\ ~ (forall schedule,
           renewals Demo.cfg
             (fst (run (Demo.world_of [("get_auth_token", "svc.T1")]) Demo.cfg schedule
                     (Demo.store_of PNone None, [Start; Start]))) <= 1).
Proof.
  split; [reflexivity | split; [reflexivity | split; [reflexivity |]]].
  intros H. specialize (H [0; 1; 0; 1]). vm_compute in H. lia.
Qed.

End AsyncFacts.

(** * More of the module *)

(** ** What [call_auth] sends and what it lets through *)

Lemma decode_accepted (w : world) (self : settings) (body : string)
    (given : list (string * bool)) (v : pyval) :
  given = [] \/ given = NON_IAT_VERIFY ->
  jwt_decode w self body given = Ok v ->
  exists j payload,
    jws_load w body = Some j /\
    PyJWT.jws_payload j = PDict payload /\
    v = PDict payload /\
    PyJWT.jws_key j = _jwt_secret self /\
    PyJWT.jws_alg j = _jwt_algorithm self /\
    PyJWT.validate_exp payload (now w) = Ok tt.
Proof.
  intros Hgiven Hdec. unfold jwt_decode, PyJWT.decode in Hdec.
  destruct (jws_load w body) as [j |]; [| discriminate Hdec].
  assert (Hopts : PyJWT.verify_signature (PyJWT.merge_options PyJWT.default_options given) = true
                  /\ PyJWT.verify_exp (PyJWT.merge_options PyJWT.default_options given) = true)
    by (destruct Hgiven as [-> | ->]; split; reflexivity).
  destruct Hopts as [Hsig Hexp].
  unfold PyJWT.verify_jws in Hdec. rewrite Hsig in Hdec.
  destruct (existsb (String.eqb (PyJWT.jws_alg j)) [_jwt_algorithm self]) eqn:Halg;
    [| discriminate Hdec].
  destruct (String.eqb (PyJWT.jws_key j) (_jwt_secret self)) eqn:Hkey;
    [| discriminate Hdec].
  cbn [negb res_bind] in Hdec.
  destruct (PyJWT.jws_payload j) as [ | | | | | | payload] eqn:Hpay; try discriminate Hdec.
  unfold PyJWT.validate_claims in Hdec. rewrite Hexp in Hdec.
  exists j, payload.
  destruct (if PyJWT.verify_iat (PyJWT.merge_options PyJWT.default_options given)
            then PyJWT.validate_iat payload (now w) else Ok tt) as [[] |];
    [| discriminate Hdec].
  destruct (if PyJWT.verify_nbf (PyJWT.merge_options PyJWT.default_options given)
            then PyJWT.validate_nbf payload (now w) else Ok tt) as [[] |];
    [| discriminate Hdec].
  destruct (PyJWT.validate_exp payload (now w)) as [[] |] eqn:Hvexp; [| discriminate Hdec].
  cbn [res_bind] in Hdec.
  destruct (if PyJWT.verify_aud (PyJWT.merge_options PyJWT.default_options given)
            then PyJWT.validate_aud payload else Ok tt) as [[] |];
    [| discriminate Hdec].
  inversion Hdec. subst v.
  cbn [existsb] in Halg. rewrite orb_false_r in Halg.
  apply String.eqb_eq in Halg. apply String.eqb_eq in Hkey.
  repeat split; auto.
Qed.

Lemma decode_body_accepted (w : world) (self : settings) (body : string)
    (s s' : store) (v : pyval) :
  decode_body w self body s = (Ok v, s') ->
  exists given, (given = [] \/ given = NON_IAT_VERIFY) /\
                jwt_decode w self body given = Ok v.
Proof.
  unfold decode_body, try_except, lift.
  destruct (jwt_decode w self body []) as [v0 | e] eqn:Hfirst.
  - intros H. inversion H. subst. exists []. split; [left; reflexivity | exact Hfirst].
  - destruct (PyJWT.is_InvalidIssuedAtError e); [| discriminate].
    unfold bind. cbn [logger].
    destruct (jwt_decode w self body NON_IAT_VERIFY) as [v1 | e1] eqn:Hsecond;
      [| discriminate].
    intros H. inversion H. subst. exists NON_IAT_VERIFY.
    split; [right; reflexivity | exact Hsecond].
Qed.

(** X1: an operation that is not in [REST_API] raises [KeyError] with
    nothing logged or sent; one that is there sends exactly one request,
    with the table's method to the server's URL for it and with the
    given parameters, logs that request first, and leaves the held
    service token and the request caches alone, whatever the authority
    answers. *)
Theorem call_auth_one_request
    (w : world) (self : settings) (call : string) (params : dict) (s : store) :
  match rest_api_get call REST_API with
  | None => call_auth w self call params s = (Raise (KeyError call), s)
  | Some (method, url) =>
      let s' := snd (call_auth w self call params s) in
      (method = "GET"%string \/ method = "POST"%string)
      /\ trace s' = trace s ++ [{| oc_method := method;
                                   oc_url := (_server self ++ url)%string;
                                   oc_params := params |}]
      /\ (exists rest,
             logs s' = logs s ++ LogCall method (_server self ++ url)%string params :: rest)
      /\ _service_token s' = _service_token s
      /\ _cache_credentials s' = _cache_credentials s
      /\ _cache_user s' = _cache_user s
  end.
Proof.
  destruct (rest_api_get call REST_API) as [[method url] |] eqn:Hapi.
  - cbv zeta.
    destruct (call_auth_trace w self call method url params s Hapi) as (Ht & Hh & Hc & Hu).
    split; [exact (rest_api_methods call method url Hapi) |].
    split; [exact Ht |].
    split; [| repeat split; assumption].
    rewrite (call_auth_unfold w self call method url params s Hapi). cbv zeta.
    set (c := {| oc_method := method; oc_url := (_server self ++ url)%string;
                 oc_params := params |}).
    destruct (status (authority w (trace s) c) =? 200).
    + unfold decode_body, try_except, lift.
      destruct (jwt_decode w self (text (authority w (trace s) c)) []) as [v | e].
      * exists []. reflexivity.
      * destruct (PyJWT.is_InvalidIssuedAtError e).
        -- exists [LogMsg ERROR "Error on Time at OAuth Server"].
           unfold bind. cbn.
           destruct (jwt_decode w self (text (authority w (trace s) c)) NON_IAT_VERIFY);
             cbn; rewrite <- app_assoc; reflexivity.
        -- exists []. reflexivity.
    + exists [LogServerError (status (authority w (trace s) c))
                (text (authority w (trace s) c))].
      cbn. rewrite <- app_assoc. reflexivity.
  - unfold call_auth. rewrite Hapi. reflexivity.
Qed.

(** X2: for every operation of [REST_API], an answer whose status is not
    200 makes [call_auth] return [None]; the status and the body go to the
    error log and the body is never decoded. *)
Theorem call_auth_rejected_status
    (w : world) (self : settings) (call method url : string) (params : dict) (s : store)
    (Hapi : rest_api_get call REST_API = Some (method, url))
    (Hstatus : status (authority w (trace s)
                         {| oc_method := method; oc_url := (_server self ++ url)%string;
                            oc_params := params |}) <> 200) :
  let c := {| oc_method := method; oc_url := (_server self ++ url)%string;
              oc_params := params |} in
  call_auth w self call params s
  = (Ok PNone,
     snd (logger (LogServerError (status (authority w (trace s) c))
                    (text (authority w (trace s) c)))
            (on_the_wire w c s))).
Proof.
  cbv zeta. rewrite (call_auth_unfold w self call method url params s Hapi). cbv zeta.
  apply Z.eqb_neq in Hstatus. rewrite Hstatus. reflexivity.
Qed.

Lemma call_auth_rejected_status_witness :
  fst (call_auth (Demo.world_of []) Demo.cfg "getScopes" [] (Demo.store_of PNone None))
  = Ok PNone.
Proof.
  rewrite (call_auth_rejected_status (Demo.world_of []) Demo.cfg "getScopes" "GET"
             "get_scopes" [] (Demo.store_of PNone None) eq_refl ltac:(discriminate)).
  reflexivity.
Defined.

(** X3: whatever [call_auth] returns other than [None] is the payload of
    a 200 answer that was signed with the configured secret and algorithm
    and whose [exp], if it has one, is not before the clock; the retry
    with [verify_iat] off lets nothing else through. *)
Theorem call_auth_result_is_authentic
    (w : world) (self : settings) (call method url : string) (params : dict)
    (s s' : store) (v : pyval)
    (Hapi : rest_api_get call REST_API = Some (method, url))
    (Hcall : call_auth w self call params s = (Ok v, s'))
    (Hsome : v <> PNone) :
  let resp := authority w (trace s)
                {| oc_method := method; oc_url := (_server self ++ url)%string;
                   oc_params := params |} in
  status resp = 200 /\
  exists j payload,
    jws_load w (text resp) = Some j /\
    PyJWT.jws_payload j = PDict payload /\
    v = PDict payload /\
    PyJWT.jws_key j = _jwt_secret self /\
    PyJWT.jws_alg j = _jwt_algorithm self /\
    PyJWT.validate_exp payload (now w) = Ok tt.
Proof.
  cbv zeta. rewrite (call_auth_unfold w self call method url params s Hapi) in Hcall.
  cbv zeta in Hcall.
  set (c := {| oc_method := method; oc_url := (_server self ++ url)%string;
               oc_params := params |}) in *.
  destruct (status (authority w (trace s) c) =? 200) eqn:Hst.
  - split; [apply Z.eqb_eq; exact Hst |].
    apply decode_body_accepted in Hcall. destruct Hcall as (given & Hgiven & Hdec).
    exact (decode_accepted w self _ given v Hgiven Hdec).
  - cbn in Hcall. inversion Hcall. subst v. contradiction Hsome. reflexivity.
Qed.

Lemma call_auth_result_is_authentic_witness :
  exists j payload,
    Demo.load "svc.skewed" = Some j /\
    PyJWT.jws_payload j = PDict payload /\
    PDict [("service_token", PStr "T2"); ("iat", PInt 1005); ("exp", PInt 4605)]
    = PDict payload /\
    PyJWT.jws_key j = "s3cret"%string /\
    PyJWT.jws_alg j = "HS256"%string /\
    PyJWT.validate_exp payload 1000 = Ok tt.
Proof.
  apply (call_auth_result_is_authentic
           (Demo.world_of [("get_auth_token", "svc.skewed")]) Demo.cfg
           "getAuthToken" "POST" "get_auth_token" (Async.getAuthToken_params Demo.cfg)
           (Demo.store_of PNone None) _
           (PDict [("service_token", PStr "T2"); ("iat", PInt 1005); ("exp", PInt 4605)])
           eq_refl eq_refl ltac:(discriminate)).
Defined.

(** ** More on [service_token] and [validate_token] *)

Lemma call_auth_accepted
    (w : world) (self : settings) (call method url : string) (params : dict)
    (s s' : store) (v : pyval) :
  rest_api_get call REST_API = Some (method, url) ->
  call_auth w self call params s = (Ok v, s') ->
  truthy v = true ->
  exists j payload,
    jws_load w (text (authority w (trace s)
                        {| oc_method := method; oc_url := (_server self ++ url)%string;
                           oc_params := params |})) = Some j /\
    PyJWT.jws_payload j = PDict payload /\
    v = PDict payload /\
    PyJWT.jws_key j = _jwt_secret self /\
    PyJWT.jws_alg j = _jwt_algorithm self /\
    PyJWT.validate_exp payload (now w) = Ok tt.
Proof.
  intros Hapi Hcall Htruthy.
  rewrite (call_auth_unfold w self call method url params s Hapi) in Hcall.
  cbv zeta in Hcall.
  set (c := {| oc_method := method; oc_url := (_server self ++ url)%string;
               oc_params := params |}) in *.
  destruct (status (authority w (trace s) c) =? 200).
  - apply decode_body_accepted in Hcall. destruct Hcall as (given & Hgiven & Hdec).
    exact (decode_accepted w self _ given v Hgiven Hdec).
  - cbn in Hcall. inversion Hcall. subst v. discriminate Htruthy.
Qed.

Lemma call_auth_result_status
    (w : world) (self : settings) (call method url : string) (params : dict)
    (s s' : store) (v : pyval) :
  rest_api_get call REST_API = Some (method, url) ->
  call_auth w self call params s = (Ok v, s') ->
  v <> PNone ->
  status (authority w (trace s)
            {| oc_method := method; oc_url := (_server self ++ url)%string;
               oc_params := params |}) = 200.
Proof.
  intros Hapi Hcall Hne.
  rewrite (call_auth_unfold w self call method url params s Hapi) in Hcall.
  cbv zeta in Hcall.
  destruct (status (authority w (trace s)
                      {| oc_method := method; oc_url := (_server self ++ url)%string;
                         oc_params := params |}) =? 200) eqn:Hst.
  - apply Z.eqb_eq. exact Hst.
  - cbn in Hcall. inversion Hcall. subst v. contradiction Hne. reflexivity.
Qed.

Lemma validate_exp_bound (payload : dict) (clock e : Z) :
  PyJWT.validate_exp payload clock = Ok tt ->
  dict_get "exp" payload = Some (PInt e) ->
  clock <= e.
Proof.
  unfold PyJWT.validate_exp. intros Hv He. rewrite He in Hv. cbn in Hv.
  destruct (e <? clock) eqn:E; [discriminate Hv |]. apply Z.ltb_ge. exact E.
Qed.

Lemma service_token_fresh (w : world) (self : settings) (s : store)
    (d : dict) (e : Z) (v : pyval) :
  _service_token s = PDict d ->
  dict_get "exp" d = Some (PInt e) ->
  now w < e ->
  dict_get "service_token" d = Some v ->
  service_token w self s = (Ok v, s).
Proof.
  intros Hd He Hlt Hv. unfold service_token.
  unfold bind at 1, get_service_token at 1. rewrite Hd.
  assert (Ht : truthy (PDict d) = true) by (destruct d; [discriminate | reflexivity]).
  rewrite Ht.
  rewrite (bind_lift_Ok _ _ _ (PInt e)) by (cbn; rewrite He; reflexivity).
  rewrite (bind_lift_Ok _ _ _ true) by (cbn; f_equal; apply Z.ltb_lt; exact Hlt).
  unfold lift. cbn. rewrite Hv. reflexivity.
Qed.

(** The ways through [service_token]. *)
Lemma service_token_outcomes (w : world) (self : settings) (s s' : store) (r : res pyval) :
  service_token w self s = (r, s') ->
  (s' = s /\
   ((r = subscript (_service_token s) "service_token" /\
     truthy (_service_token s) = true /\
     exists exp, subscript (_service_token s) "exp" = Ok exp /\
                 py_gt_int exp (now w) = Ok true)
    \/ exists e, r = Raise e))
  \/
  ((truthy (_service_token s) = false \/
    exists exp, subscript (_service_token s) "exp" = Ok exp /\
                py_gt_int exp (now w) = Ok false) /\
   match call_auth w self "getAuthToken" (Async.getAuthToken_params self)
           (snd (logger (LogMsg INFO "SERVICE TOKEN OBTAIN") s)) with
   | (Raise e, s1) => r = Raise e /\ s' = s1
   | (Ok result, s1) =>
       if truthy result
       then r = subscript result "service_token" /\
            s' = snd (set_service_token result s1)
       else r = Ok PNone /\ s' = s1
   end).
Proof.
  intros Hrun.
  assert (Hobtain :
            (logger (LogMsg INFO "SERVICE TOKEN OBTAIN") ;;;
             result <- call_auth w self "getAuthToken" (Async.getAuthToken_params self) ;;
             if truthy result then
               set_service_token result ;;;
               held <- get_service_token ;;
               lift (subscript held "service_token")
             else ret PNone) s = (r, s') ->
            match call_auth w self "getAuthToken" (Async.getAuthToken_params self)
                    (snd (logger (LogMsg INFO "SERVICE TOKEN OBTAIN") s)) with
            | (Raise e, s1) => r = Raise e /\ s' = s1
            | (Ok result, s1) =>
                if truthy result
                then r = subscript result "service_token" /\
                     s' = snd (set_service_token result s1)
                else r = Ok PNone /\ s' = s1
            end).
  { unfold bind at 1. cbn [logger snd]. unfold bind at 1.
    destruct (call_auth w self "getAuthToken" (Async.getAuthToken_params self) _)
      as [[result | e] s1].
    - destruct (truthy result).
      + unfold bind, set_service_token, get_service_token, lift. cbn.
        intros H. inversion H. split; reflexivity.
      + unfold ret. intros H. inversion H. split; reflexivity.
    - intros H. inversion H. split; reflexivity. }
  unfold service_token in Hrun. unfold bind at 1, get_service_token at 1 in Hrun.
  cbv beta iota in Hrun.
  destruct (truthy (_service_token s)) eqn:Ht.
  - unfold bind at 1, lift at 1 in Hrun.
    destruct (subscript (_service_token s) "exp") as [exp | e] eqn:Hexp.
    + unfold bind at 1, lift at 1 in Hrun.
      destruct (py_gt_int exp (now w)) as [[|] | e] eqn:Hgt.
      * unfold lift in Hrun. inversion Hrun; subst. left. split; [reflexivity |].
        left. split; [reflexivity | split; [first [reflexivity | exact Ht] |]].
        exists exp. split; first [reflexivity | assumption].
      * right. split; [right; exists exp; split; first [reflexivity | assumption] |].
        apply Hobtain. exact Hrun.
      * inversion Hrun; subst. left. split; [reflexivity |]. right. exists e. reflexivity.
    + inversion Hrun; subst. left. split; [reflexivity |]. right. exists e. reflexivity.
  - right. split; [left; reflexivity |]. apply Hobtain. exact Hrun.
Qed.

(** X4: when a call of [service_token] has returned a value and the token
    then held has an [exp] after the clock, the next call returns the very
    same value and changes nothing in the store: no request goes out. *)
Theorem service_token_reused_while_fresh
    (w : world) (self : settings) (s s1 : store) (v : pyval) (d : dict) (e : Z)
    (Hrun : service_token w self s = (Ok v, s1))
    (Hheld : _service_token s1 = PDict d)
    (Hexp : dict_get "exp" d = Some (PInt e))
    (Hlater : now w < e) :
  service_token w self s1 = (Ok v, s1).
Proof.
  assert (Hv : subscript (PDict d) "service_token" = Ok v).
  { destruct (service_token_outcomes w self s s1 (Ok v) Hrun)
      as [[Hs [(Hr & _) | [e0 He0]]] | [Hstale Hcall]].
    - subst s1. rewrite Hheld in Hr. symmetry. exact Hr.
    - discriminate He0.
    - pose proof (call_auth_trace w self "getAuthToken" "POST" "get_auth_token"
                    (Async.getAuthToken_params self)
                    (snd (logger (LogMsg INFO "SERVICE TOKEN OBTAIN") s)) eq_refl)
        as (_ & Hkeep & _).
      destruct (call_auth w self "getAuthToken" (Async.getAuthToken_params self)
                  (snd (logger (LogMsg INFO "SERVICE TOKEN OBTAIN") s)))
        as [[result | e0] s2]; cbn [snd logger _service_token] in Hkeep.
      + destruct (truthy result).
        * destruct Hcall as [Hr Hs]. subst s1. cbn in Hheld. subst result.
          symmetry. exact Hr.
        * destruct Hcall as [_ Hs]. subst s2. exfalso.
          rewrite Hheld in Hkeep. rewrite <- Hkeep in Hstale.
          destruct Hstale as [Hf | (exp & Hsub & Hgt)].
          -- destruct d; [discriminate Hexp | discriminate Hf].
          -- cbn in Hsub. rewrite Hexp in Hsub. inversion Hsub. subst exp.
             cbn in Hgt. inversion Hgt as [Hlt].
             apply Z.ltb_ge in Hlt. lia.
      + destruct Hcall as [Hr _]. discriminate Hr. }
  apply (service_token_fresh w self s1 d e v Hheld Hexp Hlater).
  cbn in Hv. destruct (dict_get "service_token" d); inversion Hv. reflexivity.
Qed.

Lemma service_token_reused_while_fresh_witness :
  service_token (Demo.world_of [("get_auth_token", "svc.T1")]) Demo.cfg
    (snd (service_token (Demo.world_of [("get_auth_token", "svc.T1")]) Demo.cfg
            (Demo.store_of PNone None)))
  = (Ok (PStr "T1"),
     snd (service_token (Demo.world_of [("get_auth_token", "svc.T1")]) Demo.cfg
            (Demo.store_of PNone None))).
Proof.
  apply (service_token_reused_while_fresh
           (Demo.world_of [("get_auth_token", "svc.T1")]) Demo.cfg
           (Demo.store_of PNone None) _ (PStr "T1")
           [("service_token", PStr "T1"); ("exp", PInt 4600)] 4600
           eq_refl eq_refl eq_refl eq_refl).
Defined.

(** X5: [service_token] hands out nothing that has expired: when it
    returns a value other than [None], the integer [exp] of the token then
    held is not before the clock. *)
Theorem service_token_not_expired
    (w : world) (self : settings) (s s' : store) (v : pyval) (d : dict) (e : Z)
    (Hrun : service_token w self s = (Ok v, s'))
    (Hsome : v <> PNone)
    (Hheld : _service_token s' = PDict d)
    (Hexp : dict_get "exp" d = Some (PInt e)) :
  now w <= e.
Proof.
  destruct (service_token_outcomes w self s s' (Ok v) Hrun)
    as [[Hs [(_ & _ & exp & Hsub & Hgt) | [e0 He0]]] | [_ Hcall]].
  - subst s'. rewrite Hheld in Hsub. cbn in Hsub. rewrite Hexp in Hsub.
    inversion Hsub. subst exp. cbn in Hgt. inversion Hgt as [Hlt].
    apply Z.ltb_lt in Hlt. lia.
  - discriminate He0.
  - destruct (call_auth w self "getAuthToken" (Async.getAuthToken_params self)
                (snd (logger (LogMsg INFO "SERVICE TOKEN OBTAIN") s)))
      as [[result | e0] s1] eqn:Hc.
    + destruct (truthy result) eqn:Ht.
      * destruct Hcall as [_ Hs]. subst s'. cbn in Hheld. subst result.
        destruct (call_auth_accepted w self "getAuthToken" "POST" "get_auth_token"
                    _ _ _ _ eq_refl Hc Ht)
          as (j & payload & _ & _ & Hpay & _ & _ & Hvalid).
        inversion Hpay. subst payload.
        exact (validate_exp_bound d (now w) e Hvalid Hexp).
      * destruct Hcall as [Hr _]. congruence.
    + destruct Hcall as [Hr _]. discriminate Hr.
Qed.

Lemma service_token_not_expired_witness : 1000 <= 4600.
Proof.
  apply (service_token_not_expired
           (Demo.world_of [("get_auth_token", "svc.T1")]) Demo.cfg
           (Demo.store_of PNone None) _ (PStr "T1")
           [("service_token", PStr "T1"); ("exp", PInt 4600)] 4600
           eq_refl ltac:(discriminate) eq_refl eq_refl).
Defined.

(** X6: [service_token] replaces the held token by nothing but a
    non-empty payload that the authority's answer to this call carried
    under the configured secret and algorithm; in every other case (a
    fresh token, a failed or refused renewal, an exception) the held
    token is the one from before. *)
Theorem service_token_store_discipline (w : world) (self : settings) (s : store) :
  let s' := snd (service_token w self s) in
  let body := text (authority w (trace s) (Async.getAuthToken_call self)) in
  _service_token s' = _service_token s
  \/ (truthy (_service_token s') = true /\
      exists j,
        jws_load w body = Some j /\
        PyJWT.jws_payload j = _service_token s' /\
        PyJWT.jws_key j = _jwt_secret self /\
        PyJWT.jws_alg j = _jwt_algorithm self).
Proof.
  cbv zeta.
  destruct (service_token w self s) as [r s'] eqn:Hrun. cbn [snd].
  destruct (service_token_outcomes w self s s' r Hrun) as [[Hs _] | [_ Hcall]].
  - left. subst s'. reflexivity.
  - pose proof (call_auth_trace w self "getAuthToken" "POST" "get_auth_token"
                  (Async.getAuthToken_params self)
                  (snd (logger (LogMsg INFO "SERVICE TOKEN OBTAIN") s)) eq_refl)
      as (_ & Hkeep & _).
    destruct (call_auth w self "getAuthToken" (Async.getAuthToken_params self)
                (snd (logger (LogMsg INFO "SERVICE TOKEN OBTAIN") s)))
      as [[result | e0] s1] eqn:Hc; cbn [snd logger _service_token] in Hkeep.
    + destruct (truthy result) eqn:Ht.
      * right. destruct Hcall as [_ Hs]. subst s'. cbn [snd set_service_token _service_token].
        split; [exact Ht |].
        destruct (call_auth_accepted w self "getAuthToken" "POST" "get_auth_token"
                    _ _ _ _ eq_refl Hc Ht)
          as (j & payload & Hload & Hpay & Hres & Hkey & Halg & _).
        exists j. subst result. repeat split; assumption.
      * left. destruct Hcall as [_ Hs]. subst s'. exact Hkeep.
    + left. destruct Hcall as [_ Hs]. subst s'. exact Hkeep.
Qed.

(** X7: [validate_token] uses the held service token as it is, expired
    or not: it sends exactly one [validToken] request carrying that
    token as [code], the presented token and the request's site id as
    [scope], and never renews or changes the held token. *)
Theorem validate_token_request
    (w : world) (self : settings) (req : request) (tok code : pyval) (s : store)
    (Hcode : subscript (_service_token s) "service_token" = Ok code) :
  let s' := snd (validate_token w self req tok s) in
  trace s' = trace s ++ [{| oc_method := "POST";
                            oc_url := (_server self ++ "valid_token")%string;
                            oc_params := [("code", code); ("token", tok);
                                          ("scope", site_id req)] |}]
  /\ _service_token s' = _service_token s.
Proof.
  cbv zeta. destruct (validate_token w self req tok s) as [r s'] eqn:Hrun. cbn [snd].
  unfold validate_token in Hrun. unfold bind at 1, get_service_token at 1 in Hrun.
  cbv beta iota in Hrun. rewrite (bind_lift_Ok _ _ _ _ Hcode) in Hrun.
  pose proof (call_auth_trace w self "validToken" "POST" "valid_token"
                [("code", code); ("token", tok); ("scope", site_id req)] s eq_refl)
    as (Ht & Hh & _).
  unfold bind at 1 in Hrun.
  destruct (call_auth w self "validToken"
              [("code", code); ("token", tok); ("scope", site_id req)] s)
    as [[result | e] s1]; cbn [snd] in Ht, Hh.
  - assert (Hs : s' = s1).
    { destruct (truthy result); [| inversion Hrun; reflexivity].
      destruct (contains "user" result) as [[|] | e]; cbn in Hrun;
        inversion Hrun; reflexivity. }
    subst s'. split; assumption.
  - inversion Hrun. subst s'. split; assumption.
Qed.

Lemma validate_token_request_witness :
  _service_token
    (snd (validate_token (Demo.world_of [("valid_token", "valid.alice")]) Demo.cfg
            (Demo.bearer "bearer.alice") (PStr "tok1")
            (Demo.store_of (PDict [("service_token", PStr "T0"); ("exp", PInt 10)])
               (Some []))))
  = PDict [("service_token", PStr "T0"); ("exp", PInt 10)].
Proof.
  apply (validate_token_request (Demo.world_of [("valid_token", "valid.alice")]) Demo.cfg
           (Demo.bearer "bearer.alice") (PStr "tok1") (PStr "T0")
           (Demo.store_of (PDict [("service_token", PStr "T0"); ("exp", PInt 10)])
              (Some [])) eq_refl).
Defined.

(** X8: what [validate_token] returns other than [None] is the ['user']
    entry of a payload that the authority sent with status 200 under the
    configured secret and algorithm; a refusal (any other status) or a
    payload without ['user'] gives [None]. *)
Theorem validate_token_user_is_authentic
    (w : world) (self : settings) (req : request) (tok code u : pyval) (s s' : store)
    (Hcode : subscript (_service_token s) "service_token" = Ok code)
    (Hrun : validate_token w self req tok s = (Ok u, s'))
    (Hsome : u <> PNone) :
  let resp := authority w (trace s)
                {| oc_method := "POST"; oc_url := (_server self ++ "valid_token")%string;
                   oc_params := [("code", code); ("token", tok);
                                 ("scope", site_id req)] |} in
  status resp = 200 /\
  exists j payload,
    jws_load w (text resp) = Some j /\
    PyJWT.jws_payload j = PDict payload /\
    PyJWT.jws_key j = _jwt_secret self /\
    PyJWT.jws_alg j = _jwt_algorithm self /\
    dict_get "user" payload = Some u.
Proof.
  cbv zeta. unfold validate_token in Hrun.
  unfold bind at 1, get_service_token at 1 in Hrun. cbv beta iota in Hrun.
  rewrite (bind_lift_Ok _ _ _ _ Hcode) in Hrun. unfold bind at 1 in Hrun.
  destruct (call_auth w self "validToken"
              [("code", code); ("token", tok); ("scope", site_id req)] s)
    as [[result | e] s1] eqn:Hc; [| discriminate Hrun].
  destruct (truthy result) eqn:Ht.
  - assert (Hne : result <> PNone) by (intros ->; discriminate Ht).
    pose proof (call_auth_result_status w self "validToken" "POST" "valid_token"
                  _ _ _ _ eq_refl Hc Hne) as Hst.
    destruct (call_auth_accepted w self "validToken" "POST" "valid_token"
                _ _ _ _ eq_refl Hc Ht)
      as (j & payload & Hload & Hpay & Hres & Hkey & Halg & _).
    split; [exact Hst |]. exists j, payload. subst result.
    repeat split; try assumption.
    unfold contains, dict_mem, bind, lift, ret, subscript in Hrun.
    destruct (dict_get "user" payload) as [x |]; inversion Hrun; subst.
    + reflexivity.
    + contradiction Hsome; reflexivity.
  - unfold ret in Hrun. inversion Hrun; subst. contradiction Hsome; reflexivity.
Qed.

Lemma validate_token_user_is_authentic_witness :
  exists j payload,
    Demo.load "valid.alice" = Some j /\
    PyJWT.jws_payload j = PDict payload /\
    PyJWT.jws_key j = "s3cret"%string /\
    PyJWT.jws_alg j = "HS256"%string /\
    dict_get "user" payload = Some (PStr "alice").
Proof.
  apply (validate_token_user_is_authentic
           (Demo.world_of [("valid_token", "valid.alice")]) Demo.cfg
           (Demo.bearer "bearer.alice") (PStr "tok1") (PStr "T1") (PStr "alice")
           (Demo.store_of Demo.T1 (Some [])) _ eq_refl eq_refl ltac:(discriminate)).
Defined.

(** ** [initialize], [auth_code] and [getCredentials] *)

Lemma call_auth_refused
    (w : world) (self : settings) (call method url : string) (params : dict) (s : store) :
  rest_api_get call REST_API = Some (method, url) ->
  status (authority w (trace s)
            {| oc_method := method; oc_url := (_server self ++ url)%string;
               oc_params := params |}) <> 200 ->
  fst (call_auth w self call params s) = Ok PNone.
Proof.
  intros Hapi Hstatus.
  rewrite (call_auth_unfold w self call method url params s Hapi). cbv zeta.
  apply Z.eqb_neq in Hstatus. rewrite Hstatus. reflexivity.
Qed.

(** A refused renewal: [service_token] returns [None], has sent the one
    request and has kept the held token. *)
Lemma service_token_refused (w : world) (self : settings) (s : store) :
  stale w s ->
  status (authority w (trace s) (Async.getAuthToken_call self)) <> 200 ->
  exists s1,
    service_token w self s = (Ok PNone, s1) /\
    trace s1 = trace s ++ [Async.getAuthToken_call self] /\
    _service_token s1 = _service_token s.
Proof.
  intros Hstale Hstatus.
  pose proof (call_auth_refused w self "getAuthToken" "POST" "get_auth_token"
                (Async.getAuthToken_params self)
                (snd (logger (LogMsg INFO "SERVICE TOKEN OBTAIN") s)) eq_refl Hstatus)
    as Hnone.
  pose proof (call_auth_trace w self "getAuthToken" "POST" "get_auth_token"
                (Async.getAuthToken_params self)
                (snd (logger (LogMsg INFO "SERVICE TOKEN OBTAIN") s)) eq_refl)
    as (Ht & Hh & _).
  cbn [snd logger] in Hnone, Ht, Hh.
  rewrite (service_token_stale w self s Hstale).
  unfold bind at 1. cbn [logger]. unfold bind at 1.
  destruct (call_auth w self "getAuthToken" (Async.getAuthToken_params self) _)
    as [[result | e] s1]; cbn [fst snd] in Hnone, Ht, Hh; [| discriminate Hnone].
  inversion Hnone. subst result. exists s1. cbn [truthy].
  split; [reflexivity | split; assumption].
Qed.

(** X9: when the authority refuses the very first token (an answer that
    is not 200), the first pass of [initialize] subscripts the [None] it
    still holds and raises [TypeError]: the renewal loop ends there, after
    its one request, whatever would have come later. *)
Theorem initialize_ends_on_first_refusal
    (w : world) (ws : list world) (self : settings) (s : store)
    (Hstatus : status (authority w (trace s) (Async.getAuthToken_call self)) <> 200) :
  fst (initialize (w :: ws) self s) = Raise TypeError /\
  trace (snd (initialize (w :: ws) self s)) = trace s ++ [Async.getAuthToken_call self] /\
  _service_token (snd (initialize (w :: ws) self s)) = PNone.
Proof.
  set (s0 := snd (logger (LogMsg DEBUG "Renew token") (snd (set_service_token PNone s)))).
  assert (Hstale : stale w s0) by (left; reflexivity).
  destruct (service_token_refused w self s0 Hstale Hstatus) as (s1 & Hst & Ht & Hh).
  assert (Hpass : initialize_pass w self (snd (set_service_token PNone s))
                  = (Raise TypeError, s1)).
  { unfold initialize_pass.
    rewrite (bind_Ok _ _ _ s0 tt) by reflexivity.
    rewrite (bind_Ok _ _ _ _ _ Hst).
    rewrite (bind_Ok _ _ _ s1 (_service_token s1)) by reflexivity.
    apply bind_lift_Raise. rewrite Hh. reflexivity. }
  assert (Hrun : initialize (w :: ws) self s = (Raise TypeError, s1)).
  { unfold initialize.
    rewrite (bind_Ok _ _ _ (snd (set_service_token PNone s)) tt) by reflexivity.
    cbn [initialize_passes]. apply bind_Raise. exact Hpass. }
  rewrite Hrun. cbn [fst snd]. split; [reflexivity | split; [exact Ht | exact Hh]].
Qed.

Lemma initialize_ends_on_first_refusal_witness :
  fst (initialize [Demo.world_of []; Demo.world_of [("get_auth_token", "svc.T1")]]
         Demo.cfg (Demo.store_of Demo.T1 None)) = Raise TypeError.
Proof.
  apply (initialize_ends_on_first_refusal (Demo.world_of [])
           [Demo.world_of [("get_auth_token", "svc.T1")]] Demo.cfg
           (Demo.store_of Demo.T1 None) ltac:(discriminate)).
Defined.

(** X10: a pass of the loop that finds an expired token and gets its
    renewal refused keeps that token and computes a sleep that is zero or
    negative, so the next pass follows at once. *)
Theorem initialize_pass_refused_renewal
    (w : world) (self : settings) (s : store) (d : dict) (e : Z)
    (Hheld : _service_token s = PDict d)
    (Hexp : dict_get "exp" d = Some (PInt e))
    (Hexpired : e <= now w)
    (Hstatus : status (authority w (trace s) (Async.getAuthToken_call self)) <> 200) :
  fst (initialize_pass w self s) = Ok (e - now w) /\
  e - now w <= 0 /\
  _service_token (snd (initialize_pass w self s)) = PDict d.
Proof.
  set (s0 := snd (logger (LogMsg DEBUG "Renew token") s)).
  assert (Hstale : stale w s0) by (right; exists d, e; repeat split; assumption).
  destruct (service_token_refused w self s0 Hstale Hstatus) as (s1 & Hst & _ & Hh).
  assert (Hrun : initialize_pass w self s = (Ok (e - now w), s1)).
  { unfold initialize_pass.
    rewrite (bind_Ok _ _ _ s0 tt) by reflexivity.
    rewrite (bind_Ok _ _ _ _ _ Hst).
    rewrite (bind_Ok _ _ _ s1 (_service_token s1)) by reflexivity.
    rewrite (bind_lift_Ok _ _ _ (PInt e))
      by (rewrite Hh; cbn [s0 snd logger _service_token]; rewrite Hheld; cbn;
          rewrite Hexp; reflexivity).
    rewrite (bind_lift_Ok _ _ _ (e - now w)) by reflexivity.
    reflexivity. }
  rewrite Hrun. cbn [fst snd]. split; [reflexivity | split; [lia |]].
  rewrite Hh. exact Hheld.
Qed.

Lemma initialize_pass_refused_renewal_witness :
  fst (initialize_pass (Demo.world_of []) Demo.cfg
         (Demo.store_of (PDict [("service_token", PStr "T0"); ("exp", PInt 990)]) None))
  = Ok (-10).
Proof.
  apply (initialize_pass_refused_renewal (Demo.world_of []) Demo.cfg
           (Demo.store_of (PDict [("service_token", PStr "T0"); ("exp", PInt 990)]) None)
           [("service_token", PStr "T0"); ("exp", PInt 990)] 990
           eq_refl eq_refl ltac:(discriminate) ltac:(discriminate)).
Defined.

(** X11: [auth_code] does not look at what [service_token] gave it.  When
    no token is held and the authority refuses to issue one, it still
    sends the [getAuthCode] request, with [None] as its [service_token]
    parameter. *)
Theorem auth_code_without_service_token
    (w : world) (self : settings) (scope client_id : pyval) (s : store)
    (Hheld : _service_token s = PNone)
    (Hstatus : status (authority w (trace s) (Async.getAuthToken_call self)) <> 200) :
  trace (snd (auth_code w self scope client_id s))
  = trace s ++ [Async.getAuthToken_call self;
                {| oc_method := "POST";
                   oc_url := (_server self ++ "get_authorization_code")%string;
                   oc_params := [("client_id", client_id); ("service_token", PNone);
                                 ("scopes", scope); ("response_type", PStr "code")] |}].
Proof.
  assert (Hstale : stale w s) by (left; rewrite Hheld; reflexivity).
  destruct (service_token_refused w self s Hstale Hstatus) as (s1 & Hst & Ht & _).
  unfold auth_code. rewrite (bind_Ok _ _ _ _ _ Hst).
  pose proof (call_auth_trace w self "getAuthCode" "POST" "get_authorization_code"
                [("client_id", client_id); ("service_token", PNone);
                 ("scopes", scope); ("response_type", PStr "code")] s1 eq_refl)
    as (Hc & _).
  unfold bind at 1.
  destruct (call_auth w self "getAuthCode"
              [("client_id", client_id); ("service_token", PNone);
               ("scopes", scope); ("response_type", PStr "code")] s1)
    as [[result | e] s2]; cbn [snd] in Hc.
  - assert (Hs : trace (snd ((if truthy result
                              then lift (subscript result "auth_code")
                              else ret PNone) s2)) = trace s2)
      by (destruct (truthy result); reflexivity).
    rewrite Hs, Hc, Ht, <- app_assoc. reflexivity.
  - cbn [snd]. rewrite Hc, Ht, <- app_assoc. reflexivity.
Qed.

Lemma auth_code_without_service_token_witness :
  List.length
    (trace (snd (auth_code (Demo2.world_of [("get_authorization_code", "code.abc")])
                   Demo.cfg (PList [PStr "site"]) (PStr "plone")
                   (Demo.store_of PNone None)))) = 2%nat.
Proof.
  rewrite (auth_code_without_service_token
             (Demo2.world_of [("get_authorization_code", "code.abc")])
             Demo.cfg (PList [PStr "site"]) (PStr "plone") (Demo.store_of PNone None)
             eq_refl ltac:(discriminate)).
  reflexivity.
Defined.

(** X12: with a token held whose [exp] is after the clock, [auth_code]
    sends one request only, [getAuthCode] with the client id, the held
    token's value, the scopes and [response_type = code]; it returns the
    ['auth_code'] of an accepted answer and [None] when the authority
    refuses. *)
Theorem auth_code_with_held_token
    (w : world) (self : settings) (scope client_id v : pyval) (s : store)
    (d : dict) (e : Z)
    (Hheld : _service_token s = PDict d)
    (Hexp : dict_get "exp" d = Some (PInt e))
    (Hlater : now w < e)
    (Hvalue : dict_get "service_token" d = Some v) :
  let params := [("client_id", client_id); ("service_token", v);
                 ("scopes", scope); ("response_type", PStr "code")] in
  let c := {| oc_method := "POST";
              oc_url := (_server self ++ "get_authorization_code")%string;
              oc_params := params |} in
  trace (snd (auth_code w self scope client_id s)) = trace s ++ [c]
  /\ fst (auth_code w self scope client_id s)
     = match fst (call_auth w self "getAuthCode" params s) with
       | Ok result => if truthy result then subscript result "auth_code" else Ok PNone
       | Raise e => Raise e
       end
  /\ (status (authority w (trace s) c) <> 200 ->
      fst (auth_code w self scope client_id s) = Ok PNone).
Proof.
  cbv zeta.
  set (params := [("client_id", client_id); ("service_token", v);
                  ("scopes", scope); ("response_type", PStr "code")]).
  pose proof (service_token_fresh w self s d e v Hheld Hexp Hlater Hvalue) as Hst.
  pose proof (call_auth_trace w self "getAuthCode" "POST" "get_authorization_code"
                params s eq_refl) as (Hc & _).
  assert (Hrun : auth_code w self scope client_id s
                 = match call_auth w self "getAuthCode" params s with
                   | (Ok result, s1) =>
                       (if truthy result then subscript result "auth_code" else Ok PNone,
                        s1)
                   | (Raise e, s1) => (Raise e, s1)
                   end).
  { unfold auth_code. rewrite (bind_Ok _ _ _ _ _ Hst). fold params. unfold bind.
    destruct (call_auth w self "getAuthCode" params s) as [[result | e0] s1];
      [| reflexivity].
    destruct (truthy result); reflexivity. }
  rewrite Hrun. split; [| split].
  - destruct (call_auth w self "getAuthCode" params s) as [[result | e0] s1];
      cbn [snd] in *; exact Hc.
  - destruct (call_auth w self "getAuthCode" params s) as [[result | e0] s1];
      reflexivity.
  - intros Hstatus.
    pose proof (call_auth_refused w self "getAuthCode" "POST" "get_authorization_code"
                  params s eq_refl Hstatus) as Hnone.
    destruct (call_auth w self "getAuthCode" params s) as [[result | e0] s1];
      cbn [fst] in *; [| discriminate Hnone].
    inversion Hnone. reflexivity.
Qed.

Lemma auth_code_with_held_token_witness :
  fst (auth_code (Demo2.world_of [("get_authorization_code", "code.abc")]) Demo.cfg
         (PList [PStr "site"]) (PStr "plone") (Demo.store_of Demo.T1 None))
  = Ok (PStr "abc").
Proof.
  rewrite (proj1 (proj2 (auth_code_with_held_token
                           (Demo2.world_of [("get_authorization_code", "code.abc")])
                           Demo.cfg (PList [PStr "site"]) (PStr "plone") (PStr "T1")
                           (Demo.store_of Demo.T1 None)
                           [("service_token", PStr "T1"); ("exp", PInt 4600)] 4600
                           eq_refl eq_refl eq_refl eq_refl))).
  reflexivity.
Defined.

(** X13: [getCredentials] fails before anything is sent when no utility
    is registered ([ComponentLookupError]) and when the request has
    neither a site nor a [scope] query parameter ([KeyError]); the held
    token is not renewed on the way. *)
Theorem getCredentials_fails_early (w : world) (req : service_request) (s : store) :
  (IOAuth w = None -> getCredentials w req s = (Raise ComponentLookupError, s))
  /\ (forall cfg,
         IOAuth w = Some cfg ->
         site req = None ->
         dict_get "scope" (GET req) = None ->
         getCredentials w req s = (Raise (KeyError "scope"), s)).
Proof.
  split.
  - intros Hreg. unfold getCredentials, getUtility. rewrite Hreg. reflexivity.
  - intros cfg Hreg Hsite Hscope. unfold getCredentials, getUtility.
    rewrite Hreg, Hsite. rewrite (bind_lift_Ok _ _ _ cfg) by reflexivity.
    unfold bind at 1. unfold dict_mem, subscript.
    destruct (dict_get "client_id" (GET req)); cbn; rewrite Hscope; reflexivity.
Qed.

Lemma getCredentials_fails_early_witness :
  getCredentials (Demo2.world_of []) {| GET := [("client_id", PStr "x")]; site := None |}
    (Demo.store_of PNone None)
  = (Raise (KeyError "scope"), Demo.store_of PNone None).
Proof.
  apply (proj2 (getCredentials_fails_early (Demo2.world_of [])
                  {| GET := [("client_id", PStr "x")]; site := None |}
                  (Demo.store_of PNone None)) Demo.cfg eq_refl eq_refl eq_refl).
Defined.

(** X14: what [getCredentials] asks for.  The client id is the [client_id]
    query parameter when there is one and the configured client id
    otherwise; the scope is the site id when the request has a site, the
    [scope] query parameter otherwise, and goes out as a one-element list;
    whatever [auth_code] returns comes back as [{'auth_code': ...}]. *)
Theorem getCredentials_composes_auth_code
    (w : world) (cfg : settings) (req : service_request) (scope client_id : pyval)
    (s s1 : store) (r : res pyval)
    (Hreg : IOAuth w = Some cfg)
    (Hclient : match dict_get "client_id" (GET req) with
               | Some c => c
               | None => PStr (_client_id cfg)
               end = client_id)
    (Hscope : match site req with
              | Some i => i
              | None => match dict_get "scope" (GET req) with
                        | Some v => v
                        | None => PNone
                        end
              end = scope)
    (Hgiven : site req <> None \/ dict_get "scope" (GET req) <> None)
    (Hauth : auth_code w cfg (PList [scope]) client_id s = (r, s1)) :
  getCredentials w req s
  = (match r with
     | Ok result => Ok (PDict [("auth_code", result)])
     | Raise e => Raise e
     end, s1).
Proof.
  unfold getCredentials, getUtility. rewrite Hreg.
  rewrite (bind_lift_Ok _ _ _ cfg) by reflexivity.
  assert (Hcid : (if dict_mem "client_id" (GET req)
                  then lift (subscript (PDict (GET req)) "client_id")
                  else ret (PStr (_client_id cfg))) s
                 = (Ok client_id, s)).
  { unfold dict_mem, subscript, lift, ret.
    destruct (dict_get "client_id" (GET req)); subst client_id; reflexivity. }
  rewrite (bind_Ok _ _ _ _ _ Hcid).
  assert (Hsc : match site req with
                | Some i => ret i
                | None => lift (subscript (PDict (GET req)) "scope")
                end s = (Ok scope, s)).
  { destruct (site req) as [i |].
    - subst scope. reflexivity.
    - unfold lift, subscript. destruct (dict_get "scope" (GET req)) as [x |].
      + subst scope. reflexivity.
      + destruct Hgiven as [H | H]; contradiction H; reflexivity. }
  rewrite (bind_Ok _ _ _ _ _ Hsc). unfold bind. rewrite Hauth.
  destruct r; reflexivity.
Qed.

Lemma getCredentials_composes_auth_code_witness :
  getCredentials (Demo2.world_of [("get_authorization_code", "code.abc")])
    {| GET := []; site := Some (PStr "site") |} (Demo.store_of Demo.T1 None)
  = (Ok (PDict [("auth_code", PStr "abc")]),
     snd (auth_code (Demo2.world_of [("get_authorization_code", "code.abc")]) Demo.cfg
            (PList [PStr "site"]) (PStr "plone") (Demo.store_of Demo.T1 None))).
Proof.
  assert (Hauth : auth_code (Demo2.world_of [("get_authorization_code", "code.abc")])
                    Demo.cfg (PList [PStr "site"]) (PStr "plone")
                    (Demo.store_of Demo.T1 None)
                  = (Ok (PStr "abc"),
                     snd (auth_code (Demo2.world_of [("get_authorization_code", "code.abc")])
                            Demo.cfg (PList [PStr "site"]) (PStr "plone")
                            (Demo.store_of Demo.T1 None))))
    by reflexivity.
  assert (Hgiven : site {| GET := []; site := Some (PStr "site") |} <> None \/
                   dict_get "scope" (GET {| GET := []; site := Some (PStr "site") |})
                   <> None)
    by (left; discriminate).
  exact (getCredentials_composes_auth_code
           (Demo2.world_of [("get_authorization_code", "code.abc")]) Demo.cfg
           {| GET := []; site := Some (PStr "site") |} (PStr "site") (PStr "plone")
           (Demo.store_of Demo.T1 None) _ (Ok (PStr "abc"))
           eq_refl eq_refl eq_refl Hgiven Hauth).
Defined.

(** ** What credential extraction and user creation send and keep *)

Lemma nothing_sent_refl (s : store) : nothing_sent s s.
Proof. split; reflexivity. Qed.

Lemma nothing_sent_at_most (s s' : store) :
  nothing_sent s s' -> at_most_validToken_sent s s'.
Proof. intros [Hh Ht]. split; [exact Hh | left; exact Ht]. Qed.

Lemma bind_quiet_then {A B : Type} (c : M A) (k : A -> M B) (s : store) :
  nothing_sent s (snd (c s)) ->
  (forall a s1, at_most_validToken_sent s1 (snd (k a s1))) ->
  at_most_validToken_sent s (snd (bind c k s)).
Proof.
  intros [Hh Ht] Hk. unfold bind.
  destruct (c s) as [[a | e] s1]; cbn [snd] in *.
  - destruct (Hk a s1) as [Hh' Ht']. split; [congruence |].
    rewrite <- Ht. destruct Ht' as [Ht' | (server & params & Ht')].
    + left. exact Ht'.
    + right. exists server, params. exact Ht'.
  - split; [exact Hh | left; exact Ht].
Qed.

Lemma bind_then_quiet {A B : Type} (c : M A) (k : A -> M B) (s : store) :
  at_most_validToken_sent s (snd (c s)) ->
  (forall a s1, nothing_sent s1 (snd (k a s1))) ->
  at_most_validToken_sent s (snd (bind c k s)).
Proof.
  intros [Hh Ht] Hk. unfold bind.
  destruct (c s) as [[a | e] s1]; cbn [snd] in *.
  - destruct (Hk a s1) as [Hh' Ht']. split; [congruence |]. rewrite Ht'. exact Ht.
  - split; [exact Hh | exact Ht].
Qed.

Lemma lift_quiet {A : Type} (r : res A) (s : store) : nothing_sent s (snd (lift r s)).
Proof. apply nothing_sent_refl. Qed.

Lemma validate_token_at_most (w : world) (self : settings) (req : request)
    (tok : pyval) (s : store) :
  at_most_validToken_sent s (snd (validate_token w self req tok s)).
Proof.
  unfold validate_token. unfold bind at 1, get_service_token at 1. cbv beta iota.
  destruct (subscript (_service_token s) "service_token") as [code | e].
  - rewrite (bind_lift_Ok _ _ _ code) by reflexivity.
    pose proof (call_auth_trace w self "validToken" "POST" "valid_token"
                  [("code", code); ("token", tok); ("scope", site_id req)] s eq_refl)
      as (Ht & Hh & _).
    assert (Hsent : forall s1,
               trace s1 = trace s ++ [{| oc_method := "POST";
                                         oc_url := (_server self ++ "valid_token")%string;
                                         oc_params := [("code", code); ("token", tok);
                                                       ("scope", site_id req)] |}] ->
               _service_token s1 = _service_token s ->
               at_most_validToken_sent s s1).
    { intros s1 Ht1 Hh1. split; [exact Hh1 |]. right.
      exists (_server self), [("code", code); ("token", tok); ("scope", site_id req)].
      exact Ht1. }
    unfold bind at 1.
    destruct (call_auth w self "validToken"
                [("code", code); ("token", tok); ("scope", site_id req)] s)
      as [[result | e] s1]; cbn [snd] in Ht, Hh; [| apply Hsent; assumption].
    destruct (truthy result); [| apply Hsent; assumption].
    destruct (contains "user" result) as [[|] | e]; cbn; apply Hsent; assumption.
  - rewrite (bind_lift_Raise _ _ _ e) by reflexivity.
    apply nothing_sent_at_most, nothing_sent_refl.
Qed.

(** X15: whatever the request and the authority, [extract_user] never
    renews or changes the held service token, and it sends either nothing
    or one [validToken] POST. *)
Theorem extract_user_sends_at_most_validToken
    (w : world) (self : PloneJWTExtraction) (s : store) :
  _service_token (snd (extract_user w self s)) = _service_token s /\
  (trace (snd (extract_user w self s)) = trace s \/
   exists server params,
     trace (snd (extract_user w self s))
     = trace s ++ [{| oc_method := "POST"; oc_url := (server ++ "valid_token")%string;
                      oc_params := params |}]).
Proof.
  change (at_most_validToken_sent s (snd (extract_user w self s))).
  unfold extract_user. apply bind_then_quiet.
  - destruct (AUTHORIZATION (pje_request self)) as [header |];
      [| apply nothing_sent_at_most, nothing_sent_refl].
    destruct (config self) as [cfg |];
      [| apply nothing_sent_at_most, nothing_sent_refl].
    destruct (partition header) as [[schema sep] encoded].
    destruct (String.eqb (lower schema) "bearer");
      [| apply nothing_sent_at_most, nothing_sent_refl].
    apply bind_quiet_then; [apply lift_quiet |]. intros tok s1.
    apply bind_quiet_then.
    { unfold try_except, bind, lift, ret.
      destruct (jwt_decode w cfg tok []) as [claims | e]; [apply nothing_sent_refl |].
      destruct (PyJWT.is_DecodeError e); split; reflexivity. }
    intros creds s2.
    destruct (dict_mem "jwt" creds); [| apply nothing_sent_at_most, nothing_sent_refl].
    apply bind_quiet_then; [apply lift_quiet |]. intros oauth_utility s3.
    apply bind_quiet_then; [apply lift_quiet |]. intros jwt s4.
    apply bind_quiet_then; [apply lift_quiet |]. intros presented s5.
    apply bind_then_quiet; [apply validate_token_at_most |]. intros validation s6.
    destruct (negb (is_None validation)); [| apply nothing_sent_refl].
    unfold bind, lift, ret.
    destruct (subscript (PDict creds) "jwt") as [jwt' | e]; [| apply nothing_sent_refl].
    destruct (subscript jwt' "login") as [claimed | e]; [| apply nothing_sent_refl].
    destruct (py_eq validation claimed); apply nothing_sent_refl.
  - intros creds s1. unfold cache_credentials, get_cache_credentials,
      set_cache_credentials, ret, raise, bind. cbn.
    destruct (_cache_credentials s1); split; reflexivity.
Qed.

Lemma bind_inv {A B : Type} (c : M A) (k : A -> M B) (s s' : store) (b : B) :
  bind c k s = (Ok b, s') ->
  exists a s1, c s = (Ok a, s1) /\ k a s1 = (Ok b, s').
Proof.
  unfold bind. destruct (c s) as [[a | e] s1]; [| discriminate].
  intros H. exists a, s1. split; [reflexivity | exact H].
Qed.

Lemma lift_inv {A : Type} (r : res A) (s s' : store) (a : A) :
  lift r s = (Ok a, s') -> r = Ok a /\ s' = s.
Proof. unfold lift. intros H. inversion H. split; reflexivity. Qed.

(** The credentials [extract_user] can come up with, before it touches
    the cache. *)
Lemma extract_user_credentials
    (w : world) (self : PloneJWTExtraction) (s s' : store) (creds cached : dict) :
  extract_user w self s = (Ok creds, s') ->
  _cache_credentials s = Some cached ->
  _cache_credentials s' = Some (dict_update cached creds) /\
  (creds = [] \/
   (exists claims, creds = [("jwt", claims)]) \/
   (exists claims who, creds = [("jwt", claims); ("user", who)])).
Proof.
  intros Hrun Hcache. unfold extract_user in Hrun.
  apply bind_inv in Hrun. destruct Hrun as (creds0 & s1 & Hblock & Hrest).
  assert (Hshape : _cache_credentials s1 = _cache_credentials s /\
                   (creds0 = [] \/
                    (exists claims, creds0 = [("jwt", claims)]) \/
                    (exists claims who, creds0 = [("jwt", claims); ("user", who)]))).
  { destruct (AUTHORIZATION (pje_request self)) as [header |];
      [| inversion Hblock; subst; split; [reflexivity | left; reflexivity]].
    destruct (config self) as [cfg |];
      [| inversion Hblock; subst; split; [reflexivity | left; reflexivity]].
    destruct (partition header) as [[schema sep] encoded].
    destruct (String.eqb (lower schema) "bearer");
      [| inversion Hblock; subst; split; [reflexivity | left; reflexivity]].
    apply bind_inv in Hblock. destruct Hblock as (tok & s2 & Htok & Hblock).
    apply lift_inv in Htok. destruct Htok as [_ ->].
    apply bind_inv in Hblock. destruct Hblock as (creds1 & s3 & Htry & Hblock).
    assert (Hdecoded : _cache_credentials s3 = _cache_credentials s /\
                       (creds1 = [] \/ exists claims, creds1 = [("jwt", claims)])).
    { unfold try_except, bind, lift, ret in Htry.
      destruct (jwt_decode w cfg tok []) as [claims | e].
      - inversion Htry; subst. split; [reflexivity | right; exists claims; reflexivity].
      - destruct (PyJWT.is_DecodeError e); [| discriminate Htry].
        cbn in Htry. inversion Htry; subst. split; [reflexivity | left; reflexivity]. }
    destruct Hdecoded as [Hc3 [-> | [claims ->]]].
    - cbn in Hblock. inversion Hblock; subst. split; [exact Hc3 | left; reflexivity].
    - change (dict_mem "jwt" [("jwt", claims)]) with true in Hblock. cbv iota in Hblock.
      apply bind_inv in Hblock. destruct Hblock as (u & s4 & Hu & Hblock).
      apply lift_inv in Hu. destruct Hu as [_ ->].
      apply bind_inv in Hblock. destruct Hblock as (jwt & s4 & Hjwt & Hblock).
      apply lift_inv in Hjwt. destruct Hjwt as [_ ->].
      apply bind_inv in Hblock. destruct Hblock as (presented & s4 & Hp & Hblock).
      apply lift_inv in Hp. destruct Hp as [_ ->].
      apply bind_inv in Hblock. destruct Hblock as (validation & s4 & Hv & Hblock).
      pose proof (validate_token_keeps_cache w u (pje_request self) presented s3) as Hk.
      rewrite Hv in Hk. cbn [snd] in Hk.
      assert (Hend : s1 = s4 /\
                     (creds0 = [("jwt", claims)] \/
                      exists who, creds0 = [("jwt", claims); ("user", who)])).
      { destruct (negb (is_None validation)).
        - apply bind_inv in Hblock. destruct Hblock as (jwt' & s5 & Hj & Hblock).
          apply lift_inv in Hj. destruct Hj as [_ ->].
          apply bind_inv in Hblock. destruct Hblock as (claimed & s5 & Hl & Hblock).
          apply lift_inv in Hl. destruct Hl as [_ ->].
          destruct (py_eq validation claimed); inversion Hblock; subst.
          + split; [reflexivity | right; exists validation; reflexivity].
          + split; [reflexivity | left; reflexivity].
        - inversion Hblock; subst. split; [reflexivity | left; reflexivity]. }
      destruct Hend as [-> Hend]. split; [congruence |].
      destruct Hend as [-> | [who ->]].
      + right. left. exists claims. reflexivity.
      + right. right. exists claims, who. reflexivity. }
  destruct Hshape as [Hc1 Hshape].
  unfold bind, cache_credentials, get_cache_credentials, set_cache_credentials, ret
    in Hrest.
  cbn in Hrest. rewrite Hc1, Hcache in Hrest. inversion Hrest; subst.
  split; [reflexivity | exact Hshape].
Qed.

(** X16: the credential cache is only added to.  After a successful
    [extract_user] the cache is the old one updated with the credentials
    returned: every entry under a key other than ['jwt'] and ['user'] is
    as before, every credential returned can be read from the cache, and a
    ['user'] is never there without the decoded ['jwt'] claims. *)
Theorem extract_user_cache_is_additive
    (w : world) (self : PloneJWTExtraction) (s s' : store) (creds cached : dict)
    (Hrun : extract_user w self s = (Ok creds, s'))
    (Hcache : _cache_credentials s = Some cached) :
  _cache_credentials s' = Some (dict_update cached creds)
  /\ (forall k, k <> "jwt"%string -> k <> "user"%string ->
                dict_get k (dict_update cached creds) = dict_get k cached)
  /\ (forall k v, dict_get k creds = Some v ->
                  dict_get k (dict_update cached creds) = Some v)
  /\ (dict_get "user" creds <> None -> dict_get "jwt" creds <> None).
Proof.
  destruct (extract_user_credentials w self s s' creds cached Hrun Hcache)
    as [Hc [-> | [[claims ->] | (claims & who & ->)]]];
    (split; [exact Hc |]); unfold dict_update; cbn [fold_left fst snd].
  - split; [reflexivity | split; [discriminate | intros H; contradiction H; reflexivity]].
  - split; [| split].
    + intros k Hj _. apply dict_get_set_other. exact Hj.
    + intros k v. cbn. destruct (String.eqb k "jwt") eqn:E; [| discriminate].
      apply String.eqb_eq in E. subst k. intros H. inversion H.
      apply dict_get_set_same.
    + discriminate.
  - split; [| split].
    + intros k Hj Hu. rewrite dict_get_set_other by exact Hu.
      apply dict_get_set_other. exact Hj.
    + intros k v. cbn. destruct (String.eqb k "jwt") eqn:E.
      * apply String.eqb_eq in E. subst k. intros H. inversion H.
        rewrite dict_get_set_other by discriminate. apply dict_get_set_same.
      * destruct (String.eqb k "user") eqn:E'; [| discriminate].
        apply String.eqb_eq in E'. subst k. intros H. inversion H.
        apply dict_get_set_same.
    + discriminate.
Qed.

Lemma extract_user_cache_is_additive_witness :
  dict_get "session"
    (dict_update [("session", PStr "s1")]
       [("jwt", PDict [("login", PStr "alice"); ("token", PStr "tok1")]);
        ("user", PStr "alice")])
  = Some (PStr "s1").
Proof.
  apply (proj1 (proj2 (extract_user_cache_is_additive
                         (Demo.world_of [("valid_token", "valid.alice")])
                         (Demo.extraction (Demo.bearer "bearer.alice"))
                         (Demo.store_of Demo.T1 (Some [("session", PStr "s1")])) _
                         [("jwt", PDict [("login", PStr "alice"); ("token", PStr "tok1")]);
                          ("user", PStr "alice")]
                         [("session", PStr "s1")] eq_refl eq_refl))
           "session"%string); discriminate.
Defined.

(** ** Degraded paths of extraction and user creation *)

(** X17: where no [IOAuth] utility is registered, building the
    extraction plugin logs the fact, and [extract_user] then returns empty
    credentials for any request, a well-formed bearer header included,
    without sending anything. *)
Theorem extraction_without_utility (w : world) (req : request) (s : store)
    (Hreg : IOAuth w = None) :
  exists s',
    (self <- PloneJWTExtraction_init w req ;; extract_user w self) s = (Ok [], s')
    /\ trace s' = trace s
    /\ logs s' = logs s ++ [LogMsg ERROR "No IOAuth Utility"]
    /\ _cache_credentials s'
       = Some match _cache_credentials s with
              | Some d => d
              | None => []
              end.
Proof.
  unfold PloneJWTExtraction_init, getUtility. rewrite Hreg.
  unfold extract_user, try_except, bind, lift, ret, logger, cache_credentials,
    get_cache_credentials, set_cache_credentials.
  cbn. destruct (_cache_credentials s) as [d |] eqn:Hc; cbn;
    destruct (AUTHORIZATION req); cbn; rewrite ?Hc; eexists;
    (split; [reflexivity | cbn; rewrite ?Hc; repeat split; reflexivity]).
Qed.

Lemma extraction_without_utility_witness :
  exists s',
    (self <- PloneJWTExtraction_init (Demo2.world_at 1000 None []) (Demo.bearer "bearer.alice") ;;
     extract_user (Demo2.world_at 1000 None []) self) (Demo.store_of Demo.T1 None)
    = (Ok [], s')
    /\ trace s' = []
    /\ logs s' = [LogMsg ERROR "No IOAuth Utility"]
    /\ _cache_credentials s' = Some [].
Proof.
  apply (extraction_without_utility (Demo2.world_at 1000 None [])
           (Demo.bearer "bearer.alice") (Demo.store_of Demo.T1 None) eq_refl).
Defined.

(** X18: a bearer token with a character outside ASCII never reaches
    [jwt.decode]: [encode('ascii')] raises [UnicodeEncodeError], which
    [extract_user] lets through, with the store untouched. *)
Theorem extract_user_non_ascii_token
    (w : world) (self : PloneJWTExtraction) (cfg : settings) (s : store)
    (header schema sep encoded : string)
    (Hheader : AUTHORIZATION (pje_request self) = Some header)
    (Hconfig : config self = Some cfg)
    (Hpart : partition header = (schema, sep, encoded))
    (Hbearer : lower schema = "bearer"%string)
    (Hchars : is_ascii encoded = false) :
  extract_user w self s = (Raise UnicodeEncodeError, s).
Proof.
  unfold extract_user. rewrite Hheader, Hconfig, Hpart, Hbearer.
  cbn [String.eqb Ascii.eqb Bool.eqb].
  unfold encode_ascii. rewrite Hchars. reflexivity.
Qed.

Lemma extract_user_non_ascii_token_witness :
  extract_user (Demo.world_of [])
    (Demo.extraction {| AUTHORIZATION := Some (String "B" (String "E" (String "A"
                          (String "R" (String "E" (String "R" (String " "
                          (String (Ascii.ascii_of_nat 233) EmptyString))))))));
                        site_id := PStr "site" |})
    (Demo.store_of Demo.T1 (Some []))
  = (Raise UnicodeEncodeError, Demo.store_of Demo.T1 (Some [])).
Proof.
  apply (extract_user_non_ascii_token (Demo.world_of [])
           (Demo.extraction
              {| AUTHORIZATION := Some (String "B" (String "E" (String "A"
                                    (String "R" (String "E" (String "R" (String " "
                                    (String (Ascii.ascii_of_nat 233) EmptyString))))))));
                 site_id := PStr "site" |})
           Demo.cfg (Demo.store_of Demo.T1 (Some []))
           (String "B" (String "E" (String "A" (String "R" (String "E" (String "R"
              (String " " (String (Ascii.ascii_of_nat 233) EmptyString))))))))
           "BEARER" " " (String (Ascii.ascii_of_nat 233) EmptyString)
           eq_refl eq_refl eq_refl eq_refl eq_refl).
Defined.

(** X19: a request without an [AUTHORIZATION] header, taken through
    extraction and user creation, ends with [AnonymousUser]; nothing is
    sent on the way and the held service token stays as it is.  (The
    cache holds no ['user'] from before.) *)
Theorem anonymous_without_header (w : world) (req : request) (s : store)
    (Hheader : AUTHORIZATION req = None)
    (Hnouser : forall d, _cache_credentials s = Some d -> dict_get "user" d = None) :
  exists s',
    (self <- PloneJWTExtraction_init w req ;;
     extract_user w self ;;;
     create_user w req) s = (Ok tt, s')
    /\ _cache_user s' = Some AnonymousUser
    /\ trace s' = trace s
    /\ _service_token s' = _service_token s.
Proof.
  assert (Hinit : exists s0 cfg d,
             PloneJWTExtraction_init w req s
             = (Ok {| pje_request := req; config := cfg |}, s0) /\
             _cache_credentials s0 = Some d /\ dict_get "user" d = None /\
             trace s0 = trace s /\ _service_token s0 = _service_token s).
  { unfold PloneJWTExtraction_init, getUtility, try_except, bind, lift, ret, logger,
      get_cache_credentials, set_cache_credentials.
    destruct (IOAuth w) as [u |]; cbn;
      destruct (_cache_credentials s) as [d |] eqn:Hc; cbn;
      eexists; eexists; eexists; (split; [reflexivity |]); cbn;
      rewrite ?Hc; (split; [reflexivity |]);
      (split; [first [apply (Hnouser d eq_refl) | reflexivity] |]);
      split; reflexivity. }
  destruct Hinit as (s0 & cfg & d & Hinit & Hc0 & Hd & Ht0 & Hh0).
  rewrite (bind_Ok _ _ _ _ _ Hinit).
  rewrite (bind_Ok _ _ _ _ _
             (extract_user_no_header w {| pje_request := req; config := cfg |} s0 d
                Hheader Hc0)).
  unfold create_user, cache_credentials, get_cache_credentials, set_cache_credentials,
    set_cache_user, bind, ret. cbn. unfold dict_mem. rewrite Hd. cbn.
  eexists. split; [reflexivity |]. cbn. repeat split; assumption.
Qed.

Lemma anonymous_without_header_witness :
  exists s',
    (self <- PloneJWTExtraction_init (Demo.world_of [])
               {| AUTHORIZATION := None; site_id := PStr "site" |} ;;
     extract_user (Demo.world_of []) self ;;;
     create_user (Demo.world_of []) {| AUTHORIZATION := None; site_id := PStr "site" |})
      (Demo.store_of PNone None) = (Ok tt, s')
    /\ _cache_user s' = Some AnonymousUser
    /\ trace s' = []
    /\ _service_token s' = PNone.
Proof.
  apply (anonymous_without_header (Demo.world_of [])
           {| AUTHORIZATION := None; site_id := PStr "site" |}
           (Demo.store_of PNone None) eq_refl).
  intros d H. discriminate H.
Defined.

(** X20: [create_user] never raises [KeyError]: every [KeyError] of user
    resolution is turned into [AnonymousUser]; and whenever it returns,
    the request has a user. *)
Theorem create_user_never_KeyError (w : world) (req : request) (s : store) :
  (forall k, fst (create_user w req s) <> Raise (KeyError k)) /\
  (fst (create_user w req s) = Ok tt ->
   exists u, _cache_user (snd (create_user w req s)) = Some u).
Proof.
  destruct (create_user w req s) as [r s'] eqn:Hrun. cbn [fst snd].
  unfold create_user, cache_credentials in Hrun.
  unfold bind at 1 in Hrun. unfold bind at 1 in Hrun.
  unfold get_cache_credentials in Hrun.
  destruct (_cache_credentials s) as [creds |]; cbn [ret raise] in Hrun;
    [| inversion Hrun; split; [intros k; discriminate | discriminate]].
  assert (Hset : forall (u : user) (s1 : store),
             (set_cache_user u s1 = (r, s')) ->
             (forall k, r <> Raise (KeyError k)) /\
             (r = Ok tt -> exists u0, _cache_user s' = Some u0)).
  { intros u s1 H. unfold set_cache_user in H. inversion H.
    split; [intros k; discriminate |]. intros _. exists u. reflexivity. }
  destruct (negb (dict_mem "user" creds)).
  - unfold bind, ret in Hrun. exact (Hset _ _ Hrun).
  - unfold bind at 1, try_except in Hrun.
    destruct ((self <- OAuthPloneUser_init ;;
               self0 <- get_info w req self ;; ret (OAuthPloneUser self0)) s)
      as [[u | e] s1].
    + exact (Hset _ _ Hrun).
    + destruct (is_KeyError e) eqn:Hk.
      * unfold ret in Hrun. exact (Hset _ _ Hrun).
      * inversion Hrun. split; [| discriminate].
        intros k Heq. subst r. inversion Heq. subst e. discriminate Hk.
Qed.

(** X21: a validated login that the authority does not know (the
    [getUser] call yields no result) makes [get_info] raise [KeyError], and
    [create_user] settles for [AnonymousUser]. *)
Theorem create_user_unknown_user
    (w : world) (cfg : settings) (req : request) (s s1 s2 : store) (creds : dict)
    (tok who held user_token result : pyval)
    (Hreg : IOAuth w = Some cfg)
    (Hcache : _cache_credentials s = Some creds)
    (Hjwt : dict_get "jwt" creds = Some tok)
    (Huser : dict_get "user" creds = Some who)
    (Hheld : service_token w cfg s = (Ok held, s1))
    (Htoken : subscript tok "token" = Ok user_token)
    (Hcall : call_auth w cfg "getUser"
               [("service_token", held); ("user_token", user_token);
                ("scope", site_id req); ("user", who)] s1 = (Ok result, s2))
    (Hnone : truthy result = false) :
  create_user w req s = (Ok tt, snd (set_cache_user AnonymousUser s2)).
Proof.
  set (self := {| token := tok; login := who; id := who;
                  _roles := PDict []; _groups := []; name := PNone |}).
  assert (Hinit : OAuthPloneUser_init s = (Ok self, s)).
  { unfold OAuthPloneUser_init, cache_credentials.
    unfold bind at 1. unfold bind at 1. unfold get_cache_credentials. rewrite Hcache.
    cbn [ret]. unfold subscript.
    rewrite (bind_lift_Ok _ _ _ tok) by (rewrite Hjwt; reflexivity).
    rewrite (bind_lift_Ok _ _ _ who) by (rewrite Huser; reflexivity).
    reflexivity. }
  assert (Hinfo : get_info w req self s = (Raise (KeyError "Not a plone.oauth User"), s2)).
  { unfold get_info.
    rewrite (bind_lift_Ok _ _ _ cfg) by (unfold getUtility; rewrite Hreg; reflexivity).
    rewrite (bind_Ok _ _ _ _ _ Hheld).
    rewrite (bind_lift_Ok _ _ _ _ Htoken).
    cbn [login self]. rewrite (bind_Ok _ _ _ _ _ Hcall). rewrite Hnone. reflexivity. }
  unfold create_user, cache_credentials.
  unfold bind at 1. unfold bind at 1. unfold get_cache_credentials. rewrite Hcache.
  cbn [ret]. unfold dict_mem. rewrite Huser. cbn [negb].
  unfold bind at 1, try_except. rewrite (bind_Ok _ _ _ _ _ Hinit).
  rewrite (bind_Raise _ _ _ _ _ Hinfo). reflexivity.
Qed.

Lemma create_user_unknown_user_witness :
  _cache_user (snd (create_user (Demo.world_of []) (Demo.bearer "bearer.alice")
                      (Demo.store_of Demo.T1 (Some Demo2.alice_cache))))
  = Some AnonymousUser.
Proof.
  rewrite (create_user_unknown_user (Demo.world_of []) Demo.cfg
             (Demo.bearer "bearer.alice")
             (Demo.store_of Demo.T1 (Some Demo2.alice_cache)) _ _ Demo2.alice_cache
             (PDict [("login", PStr "alice"); ("token", PStr "tok1")])
             (PStr "alice") (PStr "T1") (PStr "tok1") PNone
             eq_refl eq_refl eq_refl eq_refl eq_refl eq_refl eq_refl eq_refl).
  reflexivity.
Defined.



(** X23: the groups [_init_data] gives the user are exactly the keys of
    the record's group map whose membership flag counts as true. *)
Theorem init_data_member_groups
    (self : oauth_user) (user_data result : pyval) (roles groups : dict)
    (display : pyval) (s : store) (g : string)
    (Hres : subscript user_data "result" = Ok result)
    (Hroles : subscript result "roles" = Ok (PDict roles))
    (Hgroups : subscript result "groups" = Ok (PDict groups))
    (Hname : subscript result "name" = Ok display)
    (Hsome : roles <> [])
    (Hkeys : NoDup (dict_keys groups)) :
  exists u,
    fst (_init_data self user_data s) = Ok u /\
    (In g (_groups u) <->
     exists flag, dict_get g groups = Some flag /\ truthy flag = true).
Proof.
  pose proof (init_data_outcome self user_data result roles groups display s
                Hres Hroles Hgroups Hname) as Hu.
  destruct roles as [| kv roles]; [contradiction Hsome; reflexivity |].
  eexists. split; [exact Hu |]. cbn [_groups].
  unfold member_groups. rewrite in_map_iff. split.
  - intros ([k v] & Hk & Hin). cbn in Hk. subst k.
    apply filter_In in Hin. destruct Hin as [Hin Ht]. exists v. split; [| exact Ht].
    apply (dict_get_In g v groups Hkeys). exact Hin.
  - intros (flag & Hget & Ht). exists (g, flag). split; [reflexivity |].
    apply filter_In. split; [| exact Ht].
    apply (dict_get_In g flag groups Hkeys). exact Hget.
Qed.

Lemma init_data_member_groups_witness :
  exists u,
    fst (_init_data
           {| token := PNone; login := PStr "alice"; id := PStr "alice";
              _roles := PDict []; _groups := []; name := PNone |}
           (PDict [("result",
                    PDict [("roles", PDict [("manager", PInt 1)]);
                           ("groups", PDict [("staff", PInt 1); ("board", PInt 0)]);
                           ("name", PStr "Alice A.")])])
           (Demo.store_of Demo.T1 None)) = Ok u /\
    ~ In "board"%string (_groups u).
Proof.
  assert (Hnd : NoDup (dict_keys [("staff", PInt 1); ("board", PInt 0)])).
  { repeat constructor; cbn; intros H;
      repeat (destruct H as [H | H]; [discriminate H |]); exact H. }
  destruct (init_data_member_groups
              {| token := PNone; login := PStr "alice"; id := PStr "alice";
                 _roles := PDict []; _groups := []; name := PNone |}
              (PDict [("result",
                       PDict [("roles", PDict [("manager", PInt 1)]);
                              ("groups", PDict [("staff", PInt 1); ("board", PInt 0)]);
                              ("name", PStr "Alice A.")])])
              _ [("manager", PInt 1)] [("staff", PInt 1); ("board", PInt 0)]
              (PStr "Alice A.") (Demo.store_of Demo.T1 None) "board"%string
              eq_refl eq_refl eq_refl eq_refl ltac:(discriminate) Hnd)
    as (u & Hu & Hiff).
  exists u. split; [exact Hu |]. intros Hin. apply Hiff in Hin.
  destruct Hin as (flag & Hget & Ht). cbn in Hget. inversion Hget. subst flag.
  discriminate Ht.
Defined.
